(** * Finance multiservice app: ingestion worker and on-demand screen

    A shallow embedding of [src/worker/worker.py] and of the scoring and
    screening routes of [src/backend/app.py].

    - Python floats are binary64 values ([PrimFloat.float]); the decimal
      literals of the source ([0.1], [1.5], ...) are the floats Python
      reads them as.  Python integers that meet a float in a comparison
      (the literals [0], [20], [25], ...) are written as the floats they
      convert to.
    - A value found in the provider's [info] dictionary is [None], a number
      or a string; ordering a number against [None] or a string raises
      [TypeError], as in Python 3.
    - A Python string is the byte string of its UTF-8 encoding: equality is
      equality of bytes, [len] counts the characters (the bytes that start
      a UTF-8 sequence), and [str.upper()] is spelled out on ASCII strings
      and taken from the environment on the others.
    - Exceptions are values of a [result] type; stateful code runs in a
      state-and-exception monad over the store, the clock and the trace of
      calls made to the two external providers.
    - The providers and the store are an environment: what the market-data
      provider and the news page answer for a ticker (or that they raise),
      and whether the connection opened at a given place of the code fails,
      has its statements fail, or works.
    - The clock counts microseconds; [time.sleep(1)] advances it by one
      second and every other step takes no time. *)

From Stdlib Require Import ZArith PrimFloat.
From stdpp Require Import gmap strings list fin_maps sorting.

Set Warnings "-inexact-float".
Open Scope Z_scope.

(** ** Exceptions and fallible computations *)

Inductive exn : Type :=
| TypeError
| ProviderError
| HttpError
| DbError.

Inductive result (A : Type) : Type :=
| Ok (a : A)
| Raise (e : exn).
Arguments Ok {A} a.
Arguments Raise {A} e.

(** Sequencing of fallible computations: the first exception raised is the
    outcome. *)
Definition result_bind {A B} (r : result A) (k : A → result B) : result B :=
  match r with
  | Ok a => k a
  | Raise e => Raise e
  end.

Notation "'do' x <- e ; k" := (result_bind e (λ x, k))
  (at level 10, x name, e at level 100, k at level 200,
   format "'[v' 'do'  x  <-  e ; '/' k ']'").

(** ** Python values *)

Inductive pyval : Type :=
| PyNone
| PyNum (x : float)
| PyStr (s : string).
Arguments PyNum x%_float.

Abbreviation dict := (gmap string pyval).

(** [d.get(k, default)] *)
Definition dict_get (d : dict) (k : string) (default : pyval) : pyval :=
  match d !! k with
  | Some v => v
  | None => default
  end.

(** Truth value of a Python object: [None], zero and the empty string are
    false; every other number (NaN included) and string is true. *)
Definition truthy (v : pyval) : bool :=
  match v with
  | PyNone => false
  | PyNum x => negb (PrimFloat.eqb x 0)
  | PyStr EmptyString => false
  | PyStr (String _ _) => true
  end.

(** Is the value a number? *)
Definition is_num (v : pyval) : bool :=
  match v with
  | PyNum _ => true
  | _ => false
  end.

(** [a or b] *)
Definition py_or (a b : pyval) : pyval := if truthy a then a else b.

(** [a < b]: defined between two numbers and between two strings. *)
Definition py_lt (a b : pyval) : result bool :=
  match a, b with
  | PyNum x, PyNum y => Ok (PrimFloat.ltb x y)
  | PyStr s, PyStr t => Ok (String.ltb s t)
  | _, _ => Raise TypeError
  end.

(** [a > b] *)
Definition py_gt (a b : pyval) : result bool := py_lt b a.

(** [p and q] on truth values: [q] is not evaluated when [p] is false. *)
Definition py_and (p q : result bool) : result bool :=
  do c <- p; if c then q else Ok false.

(** The chained comparison [lo < x < hi], that is [lo < x and x < hi]. *)
Definition py_between (lo x hi : pyval) : result bool :=
  py_and (py_lt lo x) (py_lt x hi).

Definition num (x : float) : pyval := PyNum x.
Arguments num x%_float.
Definition zero : pyval := PyNum 0.

(** ** Scoring engine of the on-demand screen ([calculate_screening_scores]) *)

Record scores : Type := {
  sc_garp_score : Z;
  sc_growth_score : Z;
  sc_value_score : Z;
  sc_pe_ratio : pyval;
  sc_peg_ratio : pyval;
  sc_price_to_book : pyval;
  sc_roe : pyval;
  sc_revenue_growth : pyval
}.

(** The [# GARP Score] block: [garp_score = 0], then the two [if]/[elif]
    ladders that add to it. *)
Definition garp_block (pe_ratio peg_ratio revenue_growth : pyval) : result Z :=
  let garp_score := 0 in
  do c1 <- py_and (py_between zero pe_ratio (num 20)) (py_between zero peg_ratio (num 1.5));
  do garp_score <-
    (if c1 then Ok (garp_score + 3)
     else
       do c2 <- py_and (py_between zero pe_ratio (num 25)) (py_between zero peg_ratio (num 2));
       if c2 then Ok (garp_score + 2)
       else
         do c3 <- py_and (py_gt pe_ratio zero) (py_gt peg_ratio zero);
         if c3 then Ok (garp_score + 1) else Ok garp_score);
  do c4 <- py_gt revenue_growth (num 0.1);
  if c4 then Ok (garp_score + 2)
  else
    do c5 <- py_gt revenue_growth (num 0.05);
    if c5 then Ok (garp_score + 1) else Ok garp_score.

(** The [# Growth Score] block. *)
Definition growth_block (revenue_growth roe : pyval) : result Z :=
  let growth_score := 0 in
  do c1 <- py_gt revenue_growth (num 0.15);
  do growth_score <-
    (if c1 then Ok (growth_score + 3)
     else
       do c2 <- py_gt revenue_growth (num 0.1);
       if c2 then Ok (growth_score + 2)
       else
         do c3 <- py_gt revenue_growth (num 0.05);
         if c3 then Ok (growth_score + 1) else Ok growth_score);
  do c4 <- py_gt roe (num 0.15);
  if c4 then Ok (growth_score + 2)
  else
    do c5 <- py_gt roe (num 0.1);
    if c5 then Ok (growth_score + 1) else Ok growth_score.

(** The [# Value Score] block. *)
Definition value_block (pe_ratio price_to_book : pyval) : result Z :=
  let value_score := 0 in
  do c1 <- py_between zero pe_ratio (num 15);
  do value_score <-
    (if c1 then Ok (value_score + 3)
     else
       do c2 <- py_between zero pe_ratio (num 20);
       if c2 then Ok (value_score + 2)
       else
         do c3 <- py_between zero pe_ratio (num 25);
         if c3 then Ok (value_score + 1) else Ok value_score);
  do c4 <- py_between zero price_to_book (num 1.5);
  if c4 then Ok (value_score + 2)
  else
    do c5 <- py_between zero price_to_book (num 2.5);
    if c5 then Ok (value_score + 1) else Ok value_score.

(** [info.get(key, 0) or 0] *)
Definition metric (info : dict) (key : string) : pyval :=
  py_or (dict_get info key zero) zero.

(** The body of the [try] of [calculate_screening_scores]. *)
Definition calculate_screening_scores_try (info : dict) : result scores :=
  let pe_ratio := metric info "trailingPE" in
  let peg_ratio := metric info "pegRatio" in
  let price_to_book := metric info "priceToBook" in
  let roe := metric info "returnOnEquity" in
  let debt_to_equity := metric info "debtToEquity" in
  let revenue_growth := metric info "revenueGrowth" in
  do garp_score <- garp_block pe_ratio peg_ratio revenue_growth;
  do growth_score <- growth_block revenue_growth roe;
  do value_score <- value_block pe_ratio price_to_book;
  Ok {| sc_garp_score := Z.min garp_score 5;
        sc_growth_score := Z.min growth_score 5;
        sc_value_score := Z.min value_score 5;
        sc_pe_ratio := pe_ratio;
        sc_peg_ratio := peg_ratio;
        sc_price_to_book := price_to_book;
        sc_roe := roe;
        sc_revenue_growth := revenue_growth |}.

(** The dictionary returned by the [except] branch. *)
Definition zero_scores : scores :=
  {| sc_garp_score := 0; sc_growth_score := 0; sc_value_score := 0;
     sc_pe_ratio := zero; sc_peg_ratio := zero; sc_price_to_book := zero;
     sc_roe := zero; sc_revenue_growth := zero |}.

Definition calculate_screening_scores (info : dict) : scores :=
  match calculate_screening_scores_try info with
  | Ok s => s
  | Raise _ => zero_scores
  end.

(** [get_recommendation]: rating and confidence from the total score. *)
Definition get_recommendation (s : scores) : string * string :=
  let total_score := sc_garp_score s + sc_growth_score s + sc_value_score s in
  if 12 <=? total_score then ("Strong Buy", "High")
  else if 9 <=? total_score then ("Buy", "Medium")
  else if 6 <=? total_score then ("Hold", "Low")
  else ("Sell", "Low").

(** ** The worker's simplified scores (lines 94-97 of [update_stock_data]) *)

(** [3 if c else 1], clamped by [min(5, max(0, _))]. *)
Definition simple_score (c : bool) : Z := Z.min 5 (Z.max 0 (if c then 3 else 1)).

Definition update_stock_data_scores (pe_ratio : pyval) (info : dict)
  : result (Z * Z * Z) :=
  do c <- py_between zero pe_ratio (num 20);
  let garp_score := simple_score c in
  do c <- py_gt (dict_get info "revenueGrowth" zero) (num 0.1);
  let growth_score := simple_score c in
  do c <- py_between zero pe_ratio (num 15);
  let value_score := simple_score c in
  Ok (garp_score, growth_score, value_score).

(** ** The formulas as the specification words them *)

Definition flt (x y : float) : bool := PrimFloat.ltb x y.
Arguments flt (x y)%_float.

Module Spec.

(** GARP: a base of 3, 2, 1 or 0 plus a revenue-growth bonus of 2, 1 or 0. *)
Definition garp_base (pe peg : float) : Z :=
  if flt 0 pe && flt pe 20 && flt 0 peg && flt peg 1.5 then 3
  else if flt 0 pe && flt pe 25 && flt 0 peg && flt peg 2 then 2
  else if flt 0 pe && flt 0 peg then 1
  else 0.

Definition garp_bonus (revenue_growth : float) : Z :=
  if flt 0.1 revenue_growth then 2
  else if flt 0.05 revenue_growth then 1
  else 0.

Definition garp (pe peg revenue_growth : float) : Z :=
  garp_base pe peg + garp_bonus revenue_growth.

(** Growth and Value in the words of the specification. *)
Definition growth (revenue_growth roe : float) : Z :=
  (if flt 0.15 revenue_growth then 3
   else if flt 0.1 revenue_growth then 2
   else if flt 0.05 revenue_growth then 1
   else 0)
  + (if flt 0.15 roe then 2 else if flt 0.1 roe then 1 else 0).

Definition value (pe price_to_book : float) : Z :=
  (if flt 0 pe && flt pe 15 then 3
   else if flt 0 pe && flt pe 20 then 2
   else if flt 0 pe && flt pe 25 then 1
   else 0)
  + (if flt 0 price_to_book && flt price_to_book 1.5 then 2
     else if flt 0 price_to_book && flt price_to_book 2.5 then 1
     else 0).

(** The primary threshold of each full-formula score. *)
Definition garp_primary (pe peg : float) : bool :=
  flt 0 pe && flt pe 20 && flt 0 peg && flt peg 1.5.
Definition growth_primary (revenue_growth : float) : bool :=
  flt 0.15 revenue_growth.
Definition value_primary (pe : float) : bool :=
  flt 0 pe && flt pe 15.

(** The simplified variant: 3 if the primary threshold holds, else 1. *)
Definition simplified (primary : bool) : Z := if primary then 3 else 1.

End Spec.

Definition score_in_range (n : Z) : Prop := 0 <= n <= 5.

(** A block of the scoring code raises or yields a score in range. *)
Definition block_in_range (r : result Z) : Prop :=
  match r with
  | Ok n => score_in_range n
  | Raise _ => True
  end.

(** ** The relational store

    [stocks] is keyed by its primary key [ticker]; [news] has no uniqueness
    constraint, so it is a list of rows (its synthetic [id] is never read
    back by the code and is left out).  A column holds the value that the
    code hands to the driver.  Timestamps are microseconds. *)

Record stock_row : Type := {
  st_company_name : pyval;
  st_current_price : float;
  st_pe_ratio : pyval;
  st_market_cap : pyval;
  st_garp_score : Z;
  st_growth_score : Z;
  st_value_score : Z;
  st_updated_at : Z
}.

Record news_row : Type := {
  nw_ticker : string;
  nw_headline : string;
  nw_sentiment_score : float;
  nw_published_at : Z
}.

Record database : Type := {
  stocks : gmap string stock_row;
  news : list news_row
}.

(** [timedelta(days=n)] *)
Definition timedelta_days (n : Z) : Z := n * 86400 * 1000000.

(** *** SQL statements, as functions on the table contents *)

(** The worker's [INSERT INTO stocks ... ON CONFLICT (ticker) DO UPDATE SET]
    with its eight assignments from [EXCLUDED]. *)
Definition upsert_stock_worker (ticker : string) (excluded : stock_row)
    (d : database) : database :=
  let row :=
    match stocks d !! ticker with
    | None => excluded
    | Some old =>
        {| st_company_name := st_company_name excluded;
           st_current_price := st_current_price excluded;
           st_pe_ratio := st_pe_ratio excluded;
           st_market_cap := st_market_cap excluded;
           st_garp_score := st_garp_score excluded;
           st_growth_score := st_growth_score excluded;
           st_value_score := st_value_score excluded;
           st_updated_at := st_updated_at excluded |}
    end in
  {| stocks := <[ticker := row]> (stocks d); news := news d |}.

(** The screen's statement: its [SET] list has seven assignments and no
    [company_name]. *)
Definition upsert_stock_screen (ticker : string) (excluded : stock_row)
    (d : database) : database :=
  let row :=
    match stocks d !! ticker with
    | None => excluded
    | Some old =>
        {| st_company_name := st_company_name old;
           st_current_price := st_current_price excluded;
           st_pe_ratio := st_pe_ratio excluded;
           st_market_cap := st_market_cap excluded;
           st_garp_score := st_garp_score excluded;
           st_growth_score := st_growth_score excluded;
           st_value_score := st_value_score excluded;
           st_updated_at := st_updated_at excluded |}
    end in
  {| stocks := <[ticker := row]> (stocks d); news := news d |}.

(** [WHERE ticker = %s AND headline = %s] *)
Definition news_matches (ticker headline : string) (r : news_row) : bool :=
  String.eqb (nw_ticker r) ticker && String.eqb (nw_headline r) headline.

(** [SELECT id FROM news WHERE ticker = %s AND headline = %s], then
    [fetchone()]: is there such a row? *)
Definition select_news (ticker headline : string) (d : database) : bool :=
  existsb (news_matches ticker headline) (news d).

(** [INSERT INTO news (ticker, headline, sentiment_score, published_at)] *)
Definition insert_news (r : news_row) (d : database) : database :=
  {| stocks := stocks d; news := news d ++ [r] |}.

(** [DELETE FROM news WHERE published_at < %s], with its [rowcount]. *)
Definition delete_news_before (cutoff : Z) (d : database) : Z * database :=
  let kept := List.filter (λ r, negb (nw_published_at r <? cutoff)) (news d) in
  (Z.of_nat (length (news d)) - Z.of_nat (length kept),
   {| stocks := stocks d; news := kept |}).

(** [SELECT DISTINCT ticker FROM stocks] *)
Definition select_distinct_tickers (d : database) : list string :=
  (map_to_list (stocks d)).*1.

(** ** The environment of a run *)

(** A call made to one of the two external providers. *)
Inductive event : Type :=
| YfCall (ticker : string)
| NewsCall (ticker : string).

(** The places where the code opens a connection. *)
Inductive call_site : Type :=
| AtTickers
| AtStock (ticker : string)
| AtNews (ticker : string)
| AtCleanup
| AtScreen (ticker : string).

(** What the store does for the connection opened at a call site:
    [psycopg2.connect] raises, or a statement (or the commit) raises, or
    everything works. *)
Inductive db_outcome : Type :=
| ConnectFails
| StatementFails
| DbOk.

Record environment : Type := {
  (** [yf.Ticker(t).info] *)
  yf_info : string → result dict;
  (** the [Close] column of [yf.Ticker(t).history(period=p)] *)
  yf_history : string → string → result (list float);
  (** [requests.get] on the news page: the status code and the stripped
      texts of the [h3] elements that [find_all] returns, in page order *)
  news_page : string → result (Z * list string);
  (** [TextBlob(headline).sentiment.polarity] *)
  polarity : string → float;
  db_status : call_site → db_outcome;
  (** the order in which Python lists a set *)
  set_order : gset string → list string;
  (** [s.upper()] for a string [s] with a character outside ASCII:
      Python's Unicode case mapping *)
  unicode_upper : string → string
}.

Record world : Type := {
  db : database;
  clock : Z;
  trace : list event
}.

(** The three ways in which a step changes the world. *)
Definition log_call (ev : event) (w : world) : world :=
  {| db := db w; clock := clock w; trace := trace w ++ [ev] |}.
Definition advance (microseconds : Z) (w : world) : world :=
  {| db := db w; clock := clock w + microseconds; trace := trace w |}.
Definition store (d : database) (w : world) : world :=
  {| db := d; clock := clock w; trace := trace w |}.

(** ** State and exceptions *)

Definition M (A : Type) : Type := world → result A * world.

Definition ret {A} (a : A) : M A := λ w, (Ok a, w).
Definition raise {A} (e : exn) : M A := λ w, (Raise e, w).
Definition lift {A} (r : result A) : M A := λ w, (r, w).

Definition M_bind {A B} (m : M A) (k : A → M B) : M B := λ w,
  match m w with
  | (Ok a, w') => k a w'
  | (Raise e, w') => (Raise e, w')
  end.

Notation "'doM' x <- e ; k" := (M_bind e (λ x, k))
  (at level 10, x name, e at level 100, k at level 200,
   format "'[v' 'doM'  x  <-  e ; '/' k ']'").
Notation "'runM' e ; k" := (M_bind e (λ _, k))
  (at level 10, e at level 100, k at level 200,
   format "'[v' 'runM'  e ; '/' k ']'").

(** [try: body / except Exception as e: handler] *)
Definition try_except {A} (body : M A) (handler : exn → M A) : M A := λ w,
  match body w with
  | (Ok a, w') => (Ok a, w')
  | (Raise e, w') => handler e w'
  end.

(** [for x in l: body] *)
Fixpoint for_each {A} (l : list A) (body : A → M unit) : M unit :=
  match l with
  | [] => ret tt
  | x :: l' => runM body x; for_each l' body
  end.

Definition emit (ev : event) : M unit := λ w, (Ok tt, log_call ev w).

(** [datetime.now()] *)
Definition datetime_now : M Z := λ w, (Ok (clock w), w).

(** [time.sleep(seconds)] *)
Definition time_sleep (seconds : Z) : M unit := λ w,
  (Ok tt, advance (seconds * 1000000) w).

(** *** Connections and transactions

    Statements run on the transaction's view of the tables, which starts as
    the stored tables; [commit] stores it.  A transaction that is never
    committed leaves the store as it was. *)

Record connection : Type := { statements_fail : bool }.

Definition begin : M database := λ w, (Ok (db w), w).

Definition execute {A} (conn : connection) (statement : database → A * database)
    (txn : database) : M (A * database) :=
  if statements_fail conn then raise DbError else ret (statement txn).

Definition commit (conn : connection) (txn : database) : M unit := λ w,
  (Ok tt, store txn w).

(** [for x in l: acc = body(acc, x)], for loops that build a value. *)
Fixpoint for_fold {A S} (l : list A) (acc : S) (body : S → A → M S) : M S :=
  match l with
  | [] => ret acc
  | x :: l' => doM acc' <- body acc x; for_fold l' acc' body
  end.

(** ** The worker ([src/worker/worker.py]) *)

Definition DEFAULT_TICKERS : list string :=
  [ "AAPL"; "MSFT"; "GOOGL"; "AMZN"; "TSLA"; "META"; "NVDA"; "NFLX";
    "ADBE"; "CRM"; "ORCL"; "IBM"; "INTC"; "AMD"; "UBER"; "LYFT";
    "SPY"; "QQQ"; "IWM"; "GLD"; "SLV"; "TLT"; "VTI"; "VXUS" ].

(** An entry of the list that [fetch_news_sentiment] returns. *)
Record news_item : Type := {
  ni_headline : string;
  ni_sentiment_score : float;
  ni_published_at : Z
}.

(** [len(s)]: the number of characters of [s], that is of the bytes of its
    UTF-8 encoding that do not continue a multi-byte sequence. *)
Definition continuation_byte (c : Ascii.ascii) : bool :=
  let n := Ascii.N_of_ascii c in ((128 <=? n) && (n <? 192))%N.

Fixpoint py_len (s : string) : nat :=
  match s with
  | EmptyString => O
  | String c s' => if continuation_byte c then py_len s' else S (py_len s')
  end.

(** [str.upper()].  On a string of ASCII characters it replaces the letters
    a-z by A-Z and nothing else; on any other string it is Python's Unicode
    case mapping, which the environment supplies. *)
Definition upper_ascii (c : Ascii.ascii) : Ascii.ascii :=
  let n := Ascii.N_of_ascii c in
  if ((97 <=? n) && (n <=? 122))%N then Ascii.ascii_of_N (n - 32) else c.

Fixpoint ascii_upper (s : string) : string :=
  match s with
  | EmptyString => EmptyString
  | String c s' => String (upper_ascii c) (ascii_upper s')
  end.

Fixpoint is_ascii (s : string) : bool :=
  match s with
  | EmptyString => true
  | String c s' => (Ascii.N_of_ascii c <? 128)%N && is_ascii s'
  end.

Definition upper (env : environment) (s : string) : string :=
  if is_ascii s then ascii_upper s else unicode_upper env s.

(** What the screen answers: an error status, or a 200 whose JSON body is
    kept here without its 52-week range and its [last_updated] stamp, and
    with the price before rounding. *)
Inductive response : Type :=
| Json200 (ticker : string) (company_name : pyval) (current_price : float)
    (s : scores) (recommendation : string * string)
| Error404
| Error500.

Section Services.
Context (env : environment).

Definition get_db_connection (site : call_site) : M (option connection) :=
  match db_status env site with
  | ConnectFails => ret None
  | StatementFails => ret (Some {| statements_fail := true |})
  | DbOk => ret (Some {| statements_fail := false |})
  end.

(** The keep test of [fetch_news_sentiment]:
    [headline and len(headline) > 10]. *)
Definition keep_headline (headline : string) : bool :=
  truthy (PyStr headline) && (10 <? Z.of_nat (py_len headline)).

Definition fetch_news_sentiment (ticker : string) (max_articles : nat)
  : M (list news_item) :=
  try_except
    (runM emit (NewsCall ticker);
     doM response <- lift (news_page env ticker);
     let status_code := response.1 in
     if negb (status_code =? 200) then ret []
     else
       let news_items := take max_articles response.2 in
       for_fold news_items [] (λ headlines headline,
         if keep_headline headline then
           let sentiment_score := polarity env headline in
           doM now <- datetime_now;
           ret (headlines ++ [ {| ni_headline := headline;
                                  ni_sentiment_score := sentiment_score;
                                  ni_published_at := now |} ])
         else ret headlines))
    (λ _, ret []).

Definition update_stock_data (ticker : string) : M bool :=
  try_except
    (runM emit (YfCall ticker);
     doM info <- lift (yf_info env ticker);
     doM hist <- lift (yf_history env ticker "5d");
     match last hist with
     | None => ret false
     | Some current_price =>
         let pe_ratio := metric info "trailingPE" in
         let market_cap := metric info "marketCap" in
         let company_name := dict_get info "longName" (PyStr ticker) in
         doM simple <- lift (update_stock_data_scores pe_ratio info);
         let '(garp_score, growth_score, value_score) := simple in
         doM conn <- get_db_connection (AtStock ticker);
         match conn with
         | None => ret false
         | Some conn =>
             doM txn <- begin;
             doM now <- datetime_now;
             doM after <- execute conn (λ d, (tt,
               upsert_stock_worker ticker
                 {| st_company_name := company_name;
                    st_current_price := current_price;
                    st_pe_ratio := pe_ratio;
                    st_market_cap := market_cap;
                    st_garp_score := garp_score;
                    st_growth_score := growth_score;
                    st_value_score := value_score;
                    st_updated_at := now |} d)) txn;
             runM commit conn after.2;
             ret true
         end
     end)
    (λ _, ret false).

(** The body of the loop of [update_news_sentiment]: look the pair up,
    [continue] when a row exists, insert otherwise. *)
Definition insert_news_if_new (conn : connection) (ticker : string)
    (txn : database) (item : news_item) : M database :=
  doM found <- execute conn (λ d, (select_news ticker (ni_headline item) d, d)) txn;
  if found.1 then ret txn
  else
    doM after <- execute conn (λ d, (tt,
      insert_news {| nw_ticker := ticker;
                     nw_headline := ni_headline item;
                     nw_sentiment_score := ni_sentiment_score item;
                     nw_published_at := ni_published_at item |} d)) txn;
    ret after.2.

Definition update_news_sentiment (ticker : string) : M bool :=
  try_except
    (doM news_items <- fetch_news_sentiment ticker 5;
     match news_items with
     | [] => ret false
     | _ :: _ =>
         doM conn <- get_db_connection (AtNews ticker);
         match conn with
         | None => ret false
         | Some conn =>
             doM txn <- begin;
             doM txn' <- for_fold news_items txn (insert_news_if_new conn ticker);
             runM commit conn txn';
             ret true
         end
     end)
    (λ _, ret false).

Definition cleanup_old_data : M unit :=
  try_except
    (doM conn <- get_db_connection AtCleanup;
     match conn with
     | None => ret tt
     | Some conn =>
         doM txn <- begin;
         doM now <- datetime_now;
         let cutoff_date := now - timedelta_days 30 in
         doM deleted <- execute conn (delete_news_before cutoff_date) txn;
         runM commit conn deleted.2;
         ret tt
     end)
    (λ _, ret tt).

(** The first part of [worker_job]: the tickers of this cycle. *)
Definition worker_job_tickers : M (list string) :=
  doM conn <- get_db_connection AtTickers;
  let tickers := DEFAULT_TICKERS in
  match conn with
  | Some conn =>
      try_except
        (doM txn <- begin;
         doM rows <- execute conn (λ d, (select_distinct_tickers d, d)) txn;
         let db_tickers := rows.1 in
         ret (set_order env (list_to_set (tickers ++ db_tickers))))
        (λ _, ret tickers)
  | None => ret tickers
  end.

(** The [for ticker in tickers] loop of [worker_job]. *)
Definition worker_job_loop (tickers : list string) : M unit :=
  for_each tickers (λ ticker,
    try_except
      (doM stock_updated <- update_stock_data ticker;
       doM news_updated <- update_news_sentiment ticker;
       time_sleep 1)
      (λ _, ret tt)).

Definition worker_job : M unit :=
  doM tickers <- worker_job_tickers;
  runM worker_job_loop tickers;
  cleanup_old_data.

(** ** The on-demand screen ([screen_stock] of [src/backend/app.py]) *)

Definition screen_stock (ticker : string) : M response :=
  try_except
    (runM emit (YfCall (upper env ticker));
     doM info <- lift (yf_info env (upper env ticker));
     doM hist <- lift (yf_history env (upper env ticker) "1y");
     match last hist with
     | None => ret Error404
     | Some current_price =>
         let scores := calculate_screening_scores info in
         doM conn <- get_db_connection (AtScreen (upper env ticker));
         runM
           match conn with
           | Some conn =>
               try_except
                 (doM txn <- begin;
                  doM now <- datetime_now;
                  doM after <- execute conn (λ d, (tt,
                    upsert_stock_screen (upper env ticker)
                      {| st_company_name := dict_get info "longName" (PyStr (upper env ticker));
                         st_current_price := current_price;
                         st_pe_ratio := sc_pe_ratio scores;
                         st_market_cap := dict_get info "marketCap" zero;
                         st_garp_score := sc_garp_score scores;
                         st_growth_score := sc_growth_score scores;
                         st_value_score := sc_value_score scores;
                         st_updated_at := now |} d)) txn;
                  commit conn after.2)
                 (λ _, ret tt)
           | None => ret tt
           end;
         ret (Json200 (upper env ticker)
                (dict_get info "longName" (PyStr (upper env ticker)))
                current_price scores (get_recommendation scores))
     end)
    (λ _, ret Error500).

End Services.

(** ** What one call computes, as a function of the environment *)

(** The row that [update_stock_data] sends to the store when the clock
    shows [now], if the provider answers and the scores can be computed. *)
Definition stock_snapshot (env : environment) (ticker : string) (now : Z)
  : option stock_row :=
  match yf_info env ticker, yf_history env ticker "5d" with
  | Ok info, Ok hist =>
      match last hist, update_stock_data_scores (metric info "trailingPE") info with
      | Some current_price, Ok (garp_score, growth_score, value_score) =>
          Some {| st_company_name := dict_get info "longName" (PyStr ticker);
                  st_current_price := current_price;
                  st_pe_ratio := metric info "trailingPE";
                  st_market_cap := metric info "marketCap";
                  st_garp_score := garp_score;
                  st_growth_score := growth_score;
                  st_value_score := value_score;
                  st_updated_at := now |}
      | _, _ => None
      end
  | _, _ => None
  end.

Definition scored_headline (env : environment) (now : Z) (headline : string)
  : news_item :=
  {| ni_headline := headline;
     ni_sentiment_score := polarity env headline;
     ni_published_at := now |}.

(** The headlines that strictly exceed ten characters. *)
Definition longer_than_10 (headline : string) : bool :=
  10 <? Z.of_nat (py_len headline).

(** What [fetch_news_sentiment] returns when the clock shows [now]. *)
Definition collected_news (env : environment) (ticker : string)
    (max_articles : nat) (now : Z) : list news_item :=
  match news_page env ticker with
  | Ok (status_code, candidates) =>
      if status_code =? 200
      then map (scored_headline env now)
             (List.filter longer_than_10 (take max_articles candidates))
      else []
  | Raise _ => []
  end.

Definition news_row_of (ticker : string) (item : news_item) : news_row :=
  {| nw_ticker := ticker;
     nw_headline := ni_headline item;
     nw_sentiment_score := ni_sentiment_score item;
     nw_published_at := ni_published_at item |}.

(** The effect of one insert-if-new on the rows of the news table. *)
Definition add_if_new (ticker : string) (rows : list news_row) (item : news_item)
  : list news_row :=
  if existsb (news_matches ticker (ni_headline item)) rows then rows
  else rows ++ [news_row_of ticker item].

(** The number of stored rows with a given ticker and headline. *)
Definition count_news (ticker headline : string) (rows : list news_row) : nat :=
  length (List.filter (news_matches ticker headline) rows).

(** The provider calls that one pass of the loop makes for a ticker. *)
Definition calls_for (ticker : string) : list event :=
  [YfCall ticker; NewsCall ticker].

(** The world after one pass of the loop of [worker_job] for a ticker. *)
Definition after_ticker (env : environment) (ticker : string) (w : world) : world :=
  advance (1 * 1000000)
    (update_news_sentiment env ticker (update_stock_data env ticker w).2).2.

(** A stored row shows a given snapshot of the provider's data. *)
Definition stock_row_shows (row : stock_row) (ticker : string) (info : dict)
    (current_price : float) (garp_score growth_score value_score : Z) : Prop :=
  st_company_name row = dict_get info "longName" (PyStr ticker)
  ∧ st_current_price row = current_price
  ∧ st_pe_ratio row = metric info "trailingPE"
  ∧ st_market_cap row = metric info "marketCap"
  ∧ st_garp_score row = garp_score
  ∧ st_growth_score row = growth_score
  ∧ st_value_score row = value_score.

(** The stock table holds such a row for the ticker, written at or after
    [since]. *)
Definition has_stock (ticker : string) (info : dict) (current_price : float)
    (garp_score growth_score value_score : Z) (since : Z)
    (table : gmap string stock_row) : Prop :=
  ∃ row, table !! ticker = Some row
         ∧ stock_row_shows row ticker info current_price
             garp_score growth_score value_score
         ∧ since <= st_updated_at row.

(** The news table holds a row for the pair. *)
Definition has_news (ticker headline : string) (rows : list news_row) : Prop :=
  existsb (news_matches ticker headline) rows = true.

(** ** Concrete inputs used below *)

(** pe=18, peg=1.2, revenue_growth=0.12 *)
Definition info_garp5 : dict :=
  <["trailingPE" := PyNum 18]> (<["pegRatio" := PyNum 1.2]>
    (<["revenueGrowth" := PyNum 0.12]> ∅)).

(** pe=30, peg=0, revenue_growth=0.02 *)
Definition info_garp0 : dict :=
  <["trailingPE" := PyNum 30]> (<["pegRatio" := PyNum 0]>
    (<["revenueGrowth" := PyNum 0.02]> ∅)).

(** pe=18, revenue_growth=0.12 and no PEG ratio *)
Definition info_no_peg : dict :=
  <["trailingPE" := PyNum 18]> (<["revenueGrowth" := PyNum 0.12]> ∅).

(** A store that works and a world at rest. *)
Definition ok_conn : connection := {| statements_fail := false |}.

Definition empty_db : database := {| stocks := ∅; news := [] |}.

Definition quiet_env : environment :=
  {| yf_info := λ _, Raise ProviderError;
     yf_history := λ _ _, Raise ProviderError;
     news_page := λ _, Raise HttpError;
     polarity := λ _, 0%float;
     db_status := λ _, DbOk;
     set_order := elements;
     unicode_upper := λ s, s |}.

(** A news page whose only headline has exactly ten characters. *)
Definition ten_char_env : environment :=
  {| yf_info := λ _, Raise ProviderError;
     yf_history := λ _ _, Raise ProviderError;
     news_page := λ _, Ok (200, ["0123456789"]);
     polarity := λ _, 0%float;
     db_status := λ _, DbOk;
     set_order := elements;
     unicode_upper := λ s, s |}.

(** A news page with six headlines longer than ten characters. *)
Definition six_headlines : list string :=
  [ "Apple rallies on strong earnings"; "Apple unveils a new laptop line";
    "Analysts lift Apple price target"; "Apple supplier warns on demand";
    "Apple expands its buyback plan"; "Apple faces a new antitrust suit" ].

Definition six_env : environment :=
  {| yf_info := λ _, Raise ProviderError;
     yf_history := λ _ _, Raise ProviderError;
     news_page := λ _, Ok (200, six_headlines);
     polarity := λ _, 0.5%float;
     db_status := λ _, DbOk;
     set_order := elements;
     unicode_upper := λ s, s |}.

Definition rest_world (d : database) (now : Z) : world :=
  {| db := d; clock := now; trace := [] |}.

(** A news table that already holds the same pair twice. *)
Definition rally_row : news_row :=
  {| nw_ticker := "AAPL"; nw_headline := "Apple rallies on strong earnings";
     nw_sentiment_score := 0.5; nw_published_at := 1000 |}.

Definition rally_item : news_item :=
  {| ni_headline := "Apple rallies on strong earnings";
     ni_sentiment_score := 0.5; ni_published_at := 2000 |}.

Definition doubled_db : database := {| stocks := ∅; news := [rally_row; rally_row] |}.

(** A cycle that starts at [cycle_start] with one stored headline that was
    published thirty days minus one second earlier. *)
Definition cycle_start : Z := 1800000000 * 1000000.

Definition recent_row : news_row :=
  {| nw_ticker := "AAPL"; nw_headline := "Apple rallies on strong earnings";
     nw_sentiment_score := 0.5;
     nw_published_at := cycle_start - timedelta_days 30 + 1000000 |}.

Definition recent_db : database := {| stocks := ∅; news := [recent_row] |}.

(** A provider that fails for every ticker but MSFT. *)
Definition msft_info : dict :=
  <["longName" := PyStr "Microsoft Corporation"]>
    (<["trailingPE" := PyNum 18]> (<["revenueGrowth" := PyNum 0.12]> ∅)).

Definition msft_only_env : environment :=
  {| yf_info := λ t, if String.eqb t "MSFT" then Ok msft_info else Raise ProviderError;
     yf_history := λ t _,
       if String.eqb t "MSFT" then Ok [410.5%float; 412.25%float]
       else Raise ProviderError;
     news_page := λ t,
       if String.eqb t "MSFT" then Ok (200, ["Microsoft beats revenue estimates"])
       else Raise HttpError;
     polarity := λ _, 0.25%float;
     db_status := λ _, DbOk;
     set_order := elements;
     unicode_upper := λ s, s |}.

(** A stored AAPL row whose company name is the ticker symbol, and a
    provider that now knows the company's name. *)
Definition stale_row : stock_row :=
  {| st_company_name := PyStr "AAPL"; st_current_price := 150;
     st_pe_ratio := PyNum 30; st_market_cap := PyNum 2500000000000;
     st_garp_score := 1; st_growth_score := 1; st_value_score := 1;
     st_updated_at := 1000 |}.

Definition stale_db : database :=
  {| stocks := <["AAPL" := stale_row]> ∅; news := [] |}.

Definition apple_info : dict :=
  <["longName" := PyStr "Apple Inc."]>
    (<["marketCap" := PyNum 3000000000000]>
       (<["trailingPE" := PyNum 18]> (<["pegRatio" := PyNum 1.2]>
          (<["revenueGrowth" := PyNum 0.12]> ∅)))).

Definition apple_env : environment :=
  {| yf_info := λ t, if String.eqb t "AAPL" then Ok apple_info else Raise ProviderError;
     yf_history := λ t _,
       if String.eqb t "AAPL" then Ok [189.5%float; 191.25%float]
       else Raise ProviderError;
     news_page := λ _, Raise HttpError;
     polarity := λ _, 0%float;
     db_status := λ _, DbOk;
     set_order := elements;
     unicode_upper := λ s, s |}.

(** A store that holds a ticker outside the default list. *)
Definition shop_db : database :=
  {| stocks := <["SHOP" := stale_row]> ∅; news := [] |}.

(** ** The read routes of the API ([src/backend/app.py])

    A read route opens its own connection; what the store does for it is
    the argument [store].  The order in which the store returns rows that
    tie under an [ORDER BY] is its own choice, so its two sorts are
    arguments as well. *)

(** [get_db_connection] of [app.py]. *)
Definition api_get_db_connection (store : db_outcome) : M (option connection) :=
  match store with
  | ConnectFails => ret None
  | StatementFails => ret (Some {| statements_fail := true |})
  | DbOk => ret (Some {| statements_fail := false |})
  end.

Record query_engine : Type := {
  (** [ORDER BY published_at DESC] on news rows *)
  order_news : list news_row → list news_row;
  (** [ORDER BY updated_at DESC] on stock rows *)
  order_stocks : list (string * stock_row) → list (string * stock_row)
}.

Definition newest_first (r1 r2 : news_row) : Prop :=
  nw_published_at r2 <= nw_published_at r1.

Definition latest_first (r1 r2 : string * stock_row) : Prop :=
  st_updated_at r2.2 <= st_updated_at r1.2.

#[export] Instance newest_first_dec : RelDecision newest_first :=
  λ r1 r2, Z_le_dec (nw_published_at r2) (nw_published_at r1).

#[export] Instance latest_first_dec : RelDecision latest_first :=
  λ r1 r2, Z_le_dec (st_updated_at r2.2) (st_updated_at r1.2).

(** The store sorts: it returns the rows it was given, in order. *)
Definition engine_sorts (q : query_engine) : Prop :=
  (∀ rows, order_news q rows ≡ₚ rows)
  ∧ (∀ rows, StronglySorted newest_first (order_news q rows))
  ∧ (∀ rows, order_stocks q rows ≡ₚ rows)
  ∧ (∀ rows, StronglySorted latest_first (order_stocks q rows)).

(** [SELECT * FROM stocks WHERE ticker = %s], then [fetchone()]. *)
Definition select_stock (ticker : string) (d : database) : option stock_row :=
  stocks d !! ticker.

(** What [/data/<ticker>] answers: the stored row as JSON, or an error. *)
Inductive data_response : Type :=
| DataJson (ticker : string) (row : stock_row)
| DataError404
| DataError500.

Definition get_stock_data (env : environment) (store : db_outcome) (ticker : string)
  : M data_response :=
  try_except
    (doM conn <- api_get_db_connection store;
     match conn with
     | None => ret DataError500
     | Some conn =>
         doM txn <- begin;
         doM fetched <- execute conn (λ d, (select_stock (upper env ticker) d, d)) txn;
         match fetched.1 with
         | None => ret DataError404
         | Some stock_data => ret (DataJson (upper env ticker) stock_data)
         end
     end)
    (λ _, ret DataError500).

(** [SELECT headline, sentiment_score, published_at FROM news
     WHERE ticker = %s ORDER BY published_at DESC LIMIT 10] *)
Definition select_recent_news (q : query_engine) (ticker : string) (d : database)
  : list news_row :=
  take 10 (order_news q (List.filter (λ r, String.eqb (nw_ticker r) ticker) (news d))).

(** [float(n)] for the length of a list. *)
Fixpoint float_of_nat (n : nat) : float :=
  match n with
  | O => 0%float
  | S n' => PrimFloat.add (float_of_nat n') 1%float
  end.

(** An entry of [recent_news]: headline, score and publication time. *)
Definition recent_news_entry (item : news_row) : news_item :=
  {| ni_headline := nw_headline item;
     ni_sentiment_score := nw_sentiment_score item;
     ni_published_at := nw_published_at item |}.

(** What [/sentiment/<ticker>] answers: the overall score and the item
    scores are kept here before their rounding to three decimals. *)
Inductive sentiment_response : Type :=
| SentimentJson (ticker : string) (overall_score : float) (sentiment_label : string)
    (news_count : nat) (recent_news : list news_item)
| SentimentError500.

Definition get_sentiment (env : environment) (q : query_engine) (store : db_outcome)
    (ticker : string)
  : M sentiment_response :=
  try_except
    (doM conn <- api_get_db_connection store;
     match conn with
     | None => ret SentimentError500
     | Some conn =>
         doM txn <- begin;
         doM fetched <- execute conn (λ d, (select_recent_news q (upper env ticker) d, d)) txn;
         let news_items := fetched.1 in
         match news_items with
         | [] => ret (SentimentJson (upper env ticker) 0%float "Neutral" 0 [])
         | _ :: _ =>
             let total_sentiment :=
               fold_left PrimFloat.add (map nw_sentiment_score news_items) 0%float in
             let avg_sentiment :=
               PrimFloat.div total_sentiment (float_of_nat (length news_items)) in
             let sentiment_label :=
               if PrimFloat.ltb 0.1%float avg_sentiment then "Positive"
               else if PrimFloat.ltb avg_sentiment (-0.1)%float then "Negative"
               else "Neutral" in
             ret (SentimentJson (upper env ticker) avg_sentiment sentiment_label
                    (length news_items)
                    (map recent_news_entry news_items))
         end
     end)
    (λ _, ret SentimentError500).

(** The columns that [/stocks] selects. *)
Record stock_listing : Type := {
  ls_ticker : string;
  ls_company_name : pyval;
  ls_current_price : float;
  ls_garp_score : Z;
  ls_growth_score : Z;
  ls_value_score : Z;
  ls_updated_at : Z
}.

Definition listing_of (entry : string * stock_row) : stock_listing :=
  {| ls_ticker := entry.1;
     ls_company_name := st_company_name entry.2;
     ls_current_price := st_current_price entry.2;
     ls_garp_score := st_garp_score entry.2;
     ls_growth_score := st_growth_score entry.2;
     ls_value_score := st_value_score entry.2;
     ls_updated_at := st_updated_at entry.2 |}.

(** [SELECT ticker, company_name, current_price, garp_score, growth_score,
     value_score, updated_at FROM stocks ORDER BY updated_at DESC] *)
Definition select_all_stocks (q : query_engine) (d : database) : list stock_listing :=
  map listing_of (order_stocks q (map_to_list (stocks d))).

Inductive stocks_response : Type :=
| StocksJson (listing : list stock_listing)
| StocksError500.

Definition get_all_stocks (q : query_engine) (store : db_outcome) : M stocks_response :=
  try_except
    (doM conn <- api_get_db_connection store;
     match conn with
     | None => ret StocksError500
     | Some conn =>
         doM txn <- begin;
         doM fetched <- execute conn (λ d, (select_all_stocks q d, d)) txn;
         ret (StocksJson fetched.1)
     end)
    (λ _, ret StocksError500).

(** ** Further notions used in the properties *)

(** What [screen_stock] answers, read off the provider alone. *)
Definition screen_answer (env : environment) (ticker : string) : response :=
  match yf_info env (upper env ticker), yf_history env (upper env ticker) "1y" with
  | Ok info, Ok hist =>
      match last hist with
      | None => Error404
      | Some current_price =>
          Json200 (upper env ticker)
            (dict_get info "longName" (PyStr (upper env ticker)))
            current_price (calculate_screening_scores info)
            (get_recommendation (calculate_screening_scores info))
      end
  | _, _ => Error500
  end.

(** The tickers that a cycle started in world [w] works through. *)
Definition cycle_tickers (env : environment) (w : world) : list string :=
  match db_status env AtTickers with
  | DbOk =>
      set_order env (list_to_set (DEFAULT_TICKERS ++ select_distinct_tickers (db w)))
  | _ => DEFAULT_TICKERS
  end.

(** No (ticker, headline) pair is stored twice. *)
Definition no_duplicate_news (rows : list news_row) : Prop :=
  ∀ ticker headline, (count_news ticker headline rows ≤ 1)%nat.

(** A store that sorts by merging. *)
Definition merging_engine : query_engine :=
  {| order_news := merge_sort newest_first;
     order_stocks := merge_sort latest_first |}.

(** A provider whose PE ratio is the string it sometimes sends. *)
Definition infinity_info : dict :=
  <["longName" := PyStr "Apple Inc."]>
    (<["trailingPE" := PyStr "Infinity"]>
       (<["revenueGrowth" := PyNum 0.2]> (<["returnOnEquity" := PyNum 0.3]> ∅))).

(** A provider whose revenue growth is present but [None]. *)
Definition no_growth_info : dict :=
  <["longName" := PyStr "Apple Inc."]>
    (<["trailingPE" := PyNum 18]> (<["revenueGrowth" := PyNone]> ∅)).

Definition no_growth_env : environment :=
  {| yf_info := λ _, Ok no_growth_info;
     yf_history := λ _ _, Ok [189.5%float; 191.25%float];
     news_page := λ _, Raise HttpError;
     polarity := λ _, 0%float;
     db_status := λ _, DbOk;
     set_order := elements;
     unicode_upper := λ s, s |}.

(** Growth and quality without earnings: no PE ratio at all. *)
Definition no_pe_info : dict :=
  <["revenueGrowth" := PyNum 0.2]>
    (<["returnOnEquity" := PyNum 0.3]> (<["priceToBook" := PyNum 1.2]> ∅)).

(** Cheap, fast-growing and profitable: every threshold of the screen holds. *)
Definition star_info : dict :=
  <["trailingPE" := PyNum 10]>
    (<["pegRatio" := PyNum 1]>
       (<["priceToBook" := PyNum 1]>
          (<["returnOnEquity" := PyNum 0.2]> (<["revenueGrowth" := PyNum 0.2]> ∅)))).

Definition infinity_env : environment :=
  {| yf_info := λ _, Ok infinity_info;
     yf_history := λ _ _, Ok [189.5%float; 191.25%float];
     news_page := λ _, Raise HttpError;
     polarity := λ _, 0%float;
     db_status := λ _, DbOk;
     set_order := elements;
     unicode_upper := λ s, s |}.

(** Three stored headlines for AAPL and one for MSFT. *)
Definition quarter_db : database :=
  {| stocks := <["AAPL" := stale_row]> ∅;
     news :=
       [ {| nw_ticker := "AAPL"; nw_headline := "Apple rallies on strong earnings";
            nw_sentiment_score := 0.5; nw_published_at := 1000 |};
         {| nw_ticker := "MSFT"; nw_headline := "Microsoft beats revenue estimates";
            nw_sentiment_score := 0.25; nw_published_at := 4000 |};
         {| nw_ticker := "AAPL"; nw_headline := "Apple supplier warns on demand";
            nw_sentiment_score := (-0.5); nw_published_at := 3000 |};
         {| nw_ticker := "AAPL"; nw_headline := "Analysts lift Apple price target";
            nw_sentiment_score := 0.5; nw_published_at := 2000 |} ] |}.

(** The MSFT page of [msft_only_env] at a later time: the same page, another
    scorer, and a store that works. *)
Definition louder_msft_env : environment :=
  {| yf_info := λ _, Raise ProviderError;
     yf_history := λ _ _, Raise ProviderError;
     news_page := news_page msft_only_env;
     polarity := λ _, 0.75%float;
     db_status := λ _, DbOk;
     set_order := elements;
     unicode_upper := λ s, s |}.

(** A news page with accented headlines of 10, 10, 12 and 16 characters,
    all of them longer than ten bytes. *)
Definition accented_headlines : list string :=
  [ "Café menus"; "Zürich ÄÖÜ"; "Crème brûlée"; "Café menus today" ].

Definition accented_env : environment :=
  {| yf_info := λ _, Raise ProviderError;
     yf_history := λ _ _, Raise ProviderError;
     news_page := λ _, Ok (200, accented_headlines);
     polarity := λ _, 0%float;
     db_status := λ _, DbOk;
     set_order := elements;
     unicode_upper := λ s, s |}.

(** * Properties *)

(** ** Scoring *)

Ltac unfold_py :=
  unfold py_and, py_between, py_gt, py_lt, zero, num, flt, result_bind in *.

Ltac split_ifs :=
  repeat match goal with
         | |- context [if ?b then _ else _] => destruct b
         end.

Lemma garp_block_num (pe peg rg : float) :
  garp_block (PyNum pe) (PyNum peg) (PyNum rg) = Ok (Spec.garp pe peg rg).
Proof.
  unfold garp_block, Spec.garp, Spec.garp_base, Spec.garp_bonus. unfold_py.
  destruct (PrimFloat.ltb 0 pe), (PrimFloat.ltb pe 20), (PrimFloat.ltb pe 25),
    (PrimFloat.ltb 0 peg), (PrimFloat.ltb peg 1.5), (PrimFloat.ltb peg 2);
    cbn; split_ifs; reflexivity.
Qed.

Lemma growth_block_num (rg roe : float) :
  growth_block (PyNum rg) (PyNum roe) = Ok (Spec.growth rg roe).
Proof.
  unfold growth_block, Spec.growth. unfold_py.
  cbn; split_ifs; reflexivity.
Qed.

Lemma value_block_num (pe pb : float) :
  value_block (PyNum pe) (PyNum pb) = Ok (Spec.value pe pb).
Proof.
  unfold value_block, Spec.value. unfold_py.
  destruct (PrimFloat.ltb 0 pe), (PrimFloat.ltb pe 15), (PrimFloat.ltb pe 20),
    (PrimFloat.ltb pe 25), (PrimFloat.ltb 0 pb), (PrimFloat.ltb pb 1.5);
    cbn; split_ifs; reflexivity.
Qed.

Lemma spec_garp_range (pe peg rg : float) : score_in_range (Spec.garp pe peg rg).
Proof.
  unfold score_in_range, Spec.garp, Spec.garp_base, Spec.garp_bonus.
  split_ifs; lia.
Qed.

Lemma spec_growth_range (rg roe : float) : score_in_range (Spec.growth rg roe).
Proof. unfold score_in_range, Spec.growth. split_ifs; lia. Qed.

Lemma spec_value_range (pe pb : float) : score_in_range (Spec.value pe pb).
Proof. unfold score_in_range, Spec.value. split_ifs; lia. Qed.

Lemma garp_block_range (pe peg rg : pyval) : block_in_range (garp_block pe peg rg).
Proof.
  unfold garp_block, py_and, py_between, py_gt, result_bind, block_in_range, score_in_range.
  generalize (py_lt zero pe), (py_lt pe (num 20)), (py_lt pe (num 25)),
    (py_lt zero peg), (py_lt peg (num 1.5)), (py_lt peg (num 2)),
    (py_lt (num 0.1) rg), (py_lt (num 0.05) rg).
  intros r1 r2 r3 r4 r5 r6 r7 r8.
  destruct r1 as [[]|], r2 as [[]|], r3 as [[]|], r4 as [[]|]; cbn; trivial;
    destruct r5 as [[]|], r6 as [[]|]; cbn; trivial;
    destruct r7 as [[]|], r8 as [[]|]; cbn; trivial; lia.
Qed.

Lemma growth_block_range (rg roe : pyval) : block_in_range (growth_block rg roe).
Proof.
  unfold growth_block, py_gt, result_bind, block_in_range, score_in_range.
  generalize (py_lt (num 0.15) rg), (py_lt (num 0.1) rg), (py_lt (num 0.05) rg),
    (py_lt (num 0.15) roe), (py_lt (num 0.1) roe).
  intros r1 r2 r3 r4 r5.
  destruct r1 as [[]|], r2 as [[]|], r3 as [[]|]; cbn; trivial;
    destruct r4 as [[]|], r5 as [[]|]; cbn; trivial; lia.
Qed.

Lemma value_block_range (pe pb : pyval) : block_in_range (value_block pe pb).
Proof.
  unfold value_block, py_and, py_between, result_bind, block_in_range, score_in_range.
  generalize (py_lt zero pe), (py_lt pe (num 15)), (py_lt pe (num 20)),
    (py_lt pe (num 25)), (py_lt zero pb), (py_lt pb (num 1.5)), (py_lt pb (num 2.5)).
  intros r1 r2 r3 r4 r5 r6 r7.
  destruct r1 as [[]|], r2 as [[]|], r3 as [[]|], r4 as [[]|]; cbn; trivial;
    destruct r5 as [[]|], r6 as [[]|], r7 as [[]|]; cbn; trivial; lia.
Qed.

(** Between numbers the worker's three comparisons answer, and the scores
    are the three clamped choices. *)
Lemma update_stock_data_scores_num (info : dict) (pe rg : float) :
  dict_get info "revenueGrowth" zero = PyNum rg →
  update_stock_data_scores (PyNum pe) info
  = Ok (simple_score (flt 0 pe && flt pe 20),
        simple_score (flt 0.1 rg),
        simple_score (flt 0 pe && flt pe 15)).
Proof.
  intros Hrg. unfold update_stock_data_scores. rewrite Hrg. unfold_py.
  destruct (PrimFloat.ltb 0 pe); reflexivity.
Qed.

Lemma simple_score_Spec (c : bool) : simple_score c = Spec.simplified c.
Proof. destruct c; reflexivity. Qed.

(** The worker's scores exist exactly when both operands are numbers. *)
Lemma update_stock_data_scores_raises (pe_ratio : pyval) (info : dict) (e : exn) :
  update_stock_data_scores pe_ratio info = Raise e →
  is_num pe_ratio && is_num (dict_get info "revenueGrowth" zero) = false.
Proof.
  destruct pe_ratio as [|pe|s]; [reflexivity| |reflexivity].
  destruct (dict_get info "revenueGrowth" zero) as [|rg|s] eqn:Hrg;
    [reflexivity| |reflexivity].
  rewrite (update_stock_data_scores_num info pe rg Hrg). discriminate.
Qed.

Lemma update_stock_data_scores_shape (pe_ratio : pyval) (info : dict) (g gr v : Z) :
  update_stock_data_scores pe_ratio info = Ok (g, gr, v) →
  ∃ c1 c2 c3, g = simple_score c1 ∧ gr = simple_score c2 ∧ v = simple_score c3.
Proof.
  unfold update_stock_data_scores, py_between, py_and, py_gt, result_bind.
  generalize (py_lt zero pe_ratio), (py_lt pe_ratio (num 20)),
    (py_lt pe_ratio (num 15)), (py_lt (num 0.1) (dict_get info "revenueGrowth" zero)).
  intros r1 r2 r3 r4 H.
  destruct r1 as [[]|], r2 as [c2|], r4 as [c4|], r3 as [c3|];
    cbn in H; try discriminate H; injection H as <- <- <-;
    do 3 eexists; repeat split; reflexivity.
Qed.

(** C1: on every fundamentals input the screen's GARP score is the base
    (3, 2, 1 or 0 by the PE and PEG thresholds) plus the revenue-growth bonus
    (2, 1 or 0); pe=18, peg=1.2, revenue_growth=0.12 gives 5 and pe=30,
    peg=0, revenue_growth=0.02 gives 0. *)
Theorem calculate_screening_scores_garp (info : dict) (pe peg pb roe rg : float) :
  metric info "trailingPE" = PyNum pe →
  metric info "pegRatio" = PyNum peg →
  metric info "priceToBook" = PyNum pb →
  metric info "returnOnEquity" = PyNum roe →
  metric info "revenueGrowth" = PyNum rg →
  sc_garp_score (calculate_screening_scores info) = Spec.garp pe peg rg
  ∧ Spec.garp 18 1.2 0.12 = 5
  ∧ Spec.garp 30 0 0.02 = 0.
Proof.
  intros Hpe Hpeg Hpb Hroe Hrg. split; [|split; reflexivity].
  unfold calculate_screening_scores, calculate_screening_scores_try.
  rewrite Hpe, Hpeg, Hpb, Hroe, Hrg.
  rewrite garp_block_num, growth_block_num, value_block_num. cbn.
  pose proof (spec_garp_range pe peg rg) as [_ Hle]. lia.
Qed.

Lemma calculate_screening_scores_garp_witness :
  sc_garp_score (calculate_screening_scores info_garp5) = 5
  ∧ sc_garp_score (calculate_screening_scores info_garp0) = 0.
Proof.
  split.
  - destruct (calculate_screening_scores_garp info_garp5 18 1.2 0 0 0.12
                eq_refl eq_refl eq_refl eq_refl eq_refl) as (H & H5 & _).
    rewrite H. exact H5.
  - destruct (calculate_screening_scores_garp info_garp0 30 0 0 0 0.02
                eq_refl eq_refl eq_refl eq_refl eq_refl) as (H & _ & H0).
    rewrite H. exact H0.
Defined.

(** The same refinement for the two other scores of the screen. *)
Lemma calculate_screening_scores_num (info : dict) (pe peg pb roe rg : float) :
  metric info "trailingPE" = PyNum pe →
  metric info "pegRatio" = PyNum peg →
  metric info "priceToBook" = PyNum pb →
  metric info "returnOnEquity" = PyNum roe →
  metric info "revenueGrowth" = PyNum rg →
  sc_growth_score (calculate_screening_scores info) = Spec.growth rg roe
  ∧ sc_value_score (calculate_screening_scores info) = Spec.value pe pb.
Proof.
  intros Hpe Hpeg Hpb Hroe Hrg.
  unfold calculate_screening_scores, calculate_screening_scores_try.
  rewrite Hpe, Hpeg, Hpb, Hroe, Hrg.
  rewrite garp_block_num, growth_block_num, value_block_num. cbn.
  pose proof (spec_growth_range rg roe) as [_ Hle1].
  pose proof (spec_value_range pe pb) as [_ Hle2]. lia.
Qed.

(** The screen always answers with scores in range, the [except] branch
    included. *)
Lemma calculate_screening_scores_range (info : dict) :
  score_in_range (sc_garp_score (calculate_screening_scores info))
  ∧ score_in_range (sc_growth_score (calculate_screening_scores info))
  ∧ score_in_range (sc_value_score (calculate_screening_scores info)).
Proof.
  unfold calculate_screening_scores, calculate_screening_scores_try.
  pose proof (garp_block_range (metric info "trailingPE") (metric info "pegRatio")
                (metric info "revenueGrowth")) as Hg.
  pose proof (growth_block_range (metric info "revenueGrowth")
                (metric info "returnOnEquity")) as Hgr.
  pose proof (value_block_range (metric info "trailingPE")
                (metric info "priceToBook")) as Hv.
  destruct (garp_block _ _ _) as [g|]; cbn; [|unfold score_in_range; lia].
  destruct (growth_block _ _) as [gr|]; cbn; [|unfold score_in_range; lia].
  destruct (value_block _ _) as [v|]; cbn; [|unfold score_in_range; lia].
  unfold block_in_range, score_in_range in *. lia.
Qed.

Lemma simple_score_1_or_3 (c : bool) : simple_score c = 1 ∨ simple_score c = 3.
Proof. destruct c; [right|left]; reflexivity. Qed.

(** C3: each of the three scores lies in 0..5, under the screen's full
    formula (which always answers) and under the worker's simplified
    formula (which answers whenever its operands are numbers). *)
Theorem scores_in_range (info : dict) (pe_ratio : pyval) :
  (score_in_range (sc_garp_score (calculate_screening_scores info))
   ∧ score_in_range (sc_growth_score (calculate_screening_scores info))
   ∧ score_in_range (sc_value_score (calculate_screening_scores info)))
  ∧ match update_stock_data_scores pe_ratio info with
    | Ok (garp_score, growth_score, value_score) =>
        score_in_range garp_score ∧ score_in_range growth_score
        ∧ score_in_range value_score
    | Raise _ =>
        is_num pe_ratio && is_num (dict_get info "revenueGrowth" zero) = false
    end.
Proof.
  split; [apply calculate_screening_scores_range|].
  destruct (update_stock_data_scores pe_ratio info) as [[[g gr] v]|e] eqn:H.
  - apply update_stock_data_scores_shape in H as (c1 & c2 & c3 & -> & -> & ->).
    unfold score_in_range.
    destruct (simple_score_1_or_3 c1), (simple_score_1_or_3 c2),
      (simple_score_1_or_3 c3); lia.
  - exact (update_stock_data_scores_raises _ _ _ H).
Qed.

(** ** The news collector *)

Lemma keep_headline_longer (headline : string) :
  keep_headline headline = longer_than_10 headline.
Proof.
  unfold keep_headline, longer_than_10. destruct headline; reflexivity.
Qed.

Section Collector.
Context (env : environment).

Lemma collect_loop (candidates : list string) (headlines : list news_item) (w : world) :
  for_fold candidates headlines (λ headlines headline,
    if keep_headline headline then
      let sentiment_score := polarity env headline in
      doM now <- datetime_now;
      ret (headlines ++ [ {| ni_headline := headline;
                             ni_sentiment_score := sentiment_score;
                             ni_published_at := now |} ])
    else ret headlines) w
  = (Ok (headlines ++ map (scored_headline env (clock w))
                        (List.filter longer_than_10 candidates)), w).
Proof.
  revert headlines. induction candidates as [|h l IH]; intros headlines; cbn.
  - rewrite app_nil_r. reflexivity.
  - unfold M_bind at 1. rewrite <- keep_headline_longer.
    destruct (keep_headline h); cbn.
    + rewrite IH. rewrite <- app_assoc. reflexivity.
    + apply IH.
Qed.

End Collector.

Section Runs.
Context (env : environment).

Lemma fetch_news_sentiment_run (ticker : string) (max_articles : nat) (w : world) :
  fetch_news_sentiment env ticker max_articles w
  = (Ok (collected_news env ticker max_articles (clock w)),
     log_call (NewsCall ticker) w).
Proof.
  unfold fetch_news_sentiment, collected_news, try_except.
  unfold M_bind at 1, emit. unfold M_bind at 1, lift.
  destruct (news_page env ticker) as [[status_code candidates]|e]; [|reflexivity].
  cbv beta iota. unfold fst, snd.
  destruct (status_code =? 200); [|reflexivity]. cbv beta iota zeta. unfold negb.
  rewrite collect_loop. reflexivity.
Qed.

Lemma get_db_connection_run (site : call_site) (w : world) :
  get_db_connection env site w
  = (Ok match db_status env site with
        | ConnectFails => None
        | StatementFails => Some {| statements_fail := true |}
        | DbOk => Some {| statements_fail := false |}
        end, w).
Proof. unfold get_db_connection. destruct (db_status env site); reflexivity. Qed.

(** [update_stock_data] never raises; it writes the snapshot's row when
    there is one and the store works, and nothing otherwise. *)
Lemma update_stock_data_run (ticker : string) (w : world) :
  update_stock_data env ticker w
  = match stock_snapshot env ticker (clock w), db_status env (AtStock ticker) with
    | Some row, DbOk =>
        (Ok true,
         store {| stocks := <[ticker := row]> (stocks (db w)); news := news (db w) |}
           (log_call (YfCall ticker) w))
    | _, _ => (Ok false, log_call (YfCall ticker) w)
    end.
Proof.
  unfold update_stock_data, stock_snapshot, try_except, M_bind, emit, lift.
  destruct (yf_info env ticker) as [info|e]; cbn;
    [|destruct (db_status env (AtStock ticker)); reflexivity].
  destruct (yf_history env ticker "5d") as [hist|e]; cbn;
    [|destruct (db_status env (AtStock ticker)); reflexivity].
  destruct (last hist) as [current_price|]; cbn;
    [|destruct (db_status env (AtStock ticker)); reflexivity].
  destruct (update_stock_data_scores _ info) as [[[g gr] v]|e]; cbn;
    [|destruct (db_status env (AtStock ticker)); reflexivity].
  rewrite get_db_connection_run.
  destruct (db_status env (AtStock ticker)); cbn; try reflexivity.
  unfold upsert_stock_worker, store, log_call; cbn.
  destruct (stocks (db w) !! ticker); reflexivity.
Qed.

Lemma insert_loop (ticker : string) (items : list news_item) (txn : database)
    (w : world) :
  for_fold items txn (insert_news_if_new {| statements_fail := false |} ticker) w
  = (Ok {| stocks := stocks txn;
           news := fold_left (add_if_new ticker) items (news txn) |}, w).
Proof.
  revert txn. induction items as [|item items IH]; intros txn; cbn.
  - destruct txn; reflexivity.
  - unfold M_bind at 1, insert_news_if_new, execute, M_bind, ret; cbn.
    unfold add_if_new at 2, select_news.
    destruct (existsb _ (news txn)); cbn.
    + apply IH.
    + rewrite IH. reflexivity.
Qed.

Lemma insert_loop_fails (ticker : string) (item : news_item)
    (items : list news_item) (txn : database) (w : world) :
  for_fold (item :: items) txn (insert_news_if_new {| statements_fail := true |} ticker) w
  = (Raise DbError, w).
Proof. reflexivity. Qed.

(** [update_news_sentiment] never raises; it commits the insert-if-new
    of every collected headline when there is one and the store works. *)
Lemma update_news_sentiment_run (ticker : string) (w : world) :
  update_news_sentiment env ticker w
  = match collected_news env ticker 5 (clock w), db_status env (AtNews ticker) with
    | item :: items, DbOk =>
        (Ok true,
         store {| stocks := stocks (db w);
                  news := fold_left (add_if_new ticker) (item :: items) (news (db w)) |}
           (log_call (NewsCall ticker) w))
    | _, _ => (Ok false, log_call (NewsCall ticker) w)
    end.
Proof.
  unfold update_news_sentiment, try_except.
  unfold M_bind at 1. rewrite fetch_news_sentiment_run.
  destruct (collected_news env ticker 5 (clock w)) as [|item items]; [reflexivity|].
  unfold M_bind at 1. rewrite get_db_connection_run.
  destruct (db_status env (AtNews ticker)); [reflexivity| |].
  - unfold M_bind at 1, begin. unfold M_bind at 1.
    rewrite insert_loop_fails. reflexivity.
  - unfold M_bind at 1, begin. unfold M_bind at 1.
    rewrite insert_loop. reflexivity.
Qed.

(** [cleanup_old_data] never raises; with a working store it deletes the
    rows published before its own clock reading minus thirty days. *)
Lemma cleanup_old_data_run (w : world) :
  cleanup_old_data env w
  = match db_status env AtCleanup with
    | DbOk =>
        (Ok tt,
         store (delete_news_before (clock w - timedelta_days 30) (db w)).2 w)
    | _ => (Ok tt, w)
    end.
Proof.
  unfold cleanup_old_data, try_except. unfold M_bind at 1.
  rewrite get_db_connection_run.
  destruct (db_status env AtCleanup); reflexivity.
Qed.

Lemma worker_job_tickers_run (w : world) :
  worker_job_tickers env w
  = match db_status env AtTickers with
    | DbOk =>
        (Ok (set_order env
               (list_to_set (DEFAULT_TICKERS ++ select_distinct_tickers (db w)))), w)
    | _ => (Ok DEFAULT_TICKERS, w)
    end.
Proof.
  unfold worker_job_tickers. unfold M_bind at 1. rewrite get_db_connection_run.
  destruct (db_status env AtTickers); reflexivity.
Qed.

End Runs.

(** ** The worker's simplified scores against the full formula *)

(** C2 as stated fails: with pe=18, no PEG ratio and revenue_growth=0.12 the
    worker scores GARP 3 and Growth 3, although neither primary threshold of
    the full formula holds (the PEG ratio is 0 and 0.12 is not above 0.15). *)
Lemma worker_scores_ignore_peg_and_use_ten_percent :
  metric info_no_peg "trailingPE" = PyNum 18
  ∧ metric info_no_peg "pegRatio" = PyNum 0
  ∧ dict_get info_no_peg "revenueGrowth" zero = PyNum 0.12
  ∧ update_stock_data_scores (metric info_no_peg "trailingPE") info_no_peg
    = Ok (3, 3, 1)
  ∧ Spec.simplified (Spec.garp_primary 18 0) = 1
  ∧ Spec.simplified (Spec.growth_primary 0.12) = 1
  ∧ Spec.simplified (Spec.value_primary 18) = 1.
Proof. repeat split; vm_compute; reflexivity. Qed.

(** C2, amended: the worker's garp score is 3 when 0 < pe < 20 (the PEG
    ratio is not consulted), its growth score is 3 when revenue_growth > 0.10,
    its value score is 3 when 0 < pe < 15, which is the primary threshold of
    the full Value score; each is 1 otherwise. *)
Theorem worker_simplified_scores (info : dict) (pe rg : float) :
  metric info "trailingPE" = PyNum pe →
  dict_get info "revenueGrowth" zero = PyNum rg →
  update_stock_data_scores (metric info "trailingPE") info
  = Ok (Spec.simplified (flt 0 pe && flt pe 20),
        Spec.simplified (flt 0.1 rg),
        Spec.simplified (Spec.value_primary pe)).
Proof.
  intros Hpe Hrg. rewrite Hpe.
  rewrite (update_stock_data_scores_num info pe rg Hrg).
  rewrite !simple_score_Spec. reflexivity.
Qed.

Lemma worker_simplified_scores_witness :
  update_stock_data_scores (metric info_no_peg "trailingPE") info_no_peg
  = Ok (3, 3, 1).
Proof.
  exact (worker_simplified_scores info_no_peg 18 0.12 eq_refl eq_refl).
Defined.

(** ** The news collector keeps the headlines longer than ten characters *)

(** C7 as stated fails: a headline of exactly ten characters is discarded. *)
Lemma ten_character_headline_is_discarded :
  py_len "0123456789" = 10%nat
  ∧ news_page ten_char_env "AAPL" = Ok (200, ["0123456789"])
  ∧ (fetch_news_sentiment ten_char_env "AAPL" 5 (rest_world empty_db 0)).1 = Ok [].
Proof. repeat split; reflexivity. Qed.

(** Nor is a sixth candidate looked at, whatever its length. *)
Lemma sixth_headline_is_not_collected :
  length six_headlines = 6%nat
  ∧ forallb longer_than_10 six_headlines = true
  ∧ match (fetch_news_sentiment six_env "AAPL" 5 (rest_world empty_db 0)).1 with
    | Ok headlines => map ni_headline headlines = take 5 six_headlines
    | Raise _ => False
    end.
Proof. repeat split; vm_compute; reflexivity. Qed.

(** Length is counted in characters: accented headlines of ten characters
    are discarded although they take more than ten bytes. *)
Lemma accented_headlines_are_measured_in_characters :
  map py_len accented_headlines = [10; 10; 12; 16]%nat
  ∧ map String.length accented_headlines = [11; 14; 15; 17]%nat
  ∧ match (fetch_news_sentiment accented_env "AAPL" 5 (rest_world empty_db 0)).1 with
    | Ok headlines =>
        map ni_headline headlines = ["Crème brûlée"; "Café menus today"]
    | Raise _ => False
    end.
Proof. repeat split; vm_compute; reflexivity. Qed.

(** C7, amended: when the page answers 200 the collector looks at the first
    [max_articles] candidates (five in the worker) and keeps exactly those
    longer than ten characters; each kept headline is scored, stamped with
    the clock and returned, in page order. *)
Theorem fetch_news_sentiment_keeps_longer_than_10 (env : environment)
    (ticker : string) (max_articles : nat) (candidates : list string) (w : world) :
  news_page env ticker = Ok (200, candidates) →
  ∃ headlines,
    (fetch_news_sentiment env ticker max_articles w).1 = Ok headlines
    ∧ headlines
      = map (scored_headline env (clock w))
          (List.filter longer_than_10 (take max_articles candidates))
    ∧ ∀ headline,
        In headline (map ni_headline headlines)
        ↔ In headline (take max_articles candidates)
          ∧ (10 < py_len headline)%nat.
Proof.
  intros Hpage. eexists. rewrite fetch_news_sentiment_run. cbn.
  unfold collected_news. rewrite Hpage. cbn. split; [reflexivity|].
  split; [reflexivity|]. intros headline.
  rewrite map_map. cbn. rewrite map_id, filter_In.
  unfold longer_than_10. rewrite Z.ltb_lt.
  split; intros [Hin Hlen]; (split; [exact Hin|lia]).
Qed.

Lemma fetch_news_sentiment_keeps_longer_than_10_witness :
  ∃ headlines,
    (fetch_news_sentiment six_env "AAPL" 5 (rest_world empty_db 0)).1 = Ok headlines
    ∧ headlines
      = map (scored_headline six_env 0)
          (List.filter longer_than_10 (take 5 six_headlines))
    ∧ ∀ headline,
        In headline (map ni_headline headlines)
        ↔ In headline (take 5 six_headlines) ∧ (10 < py_len headline)%nat.
Proof.
  exact (fetch_news_sentiment_keeps_longer_than_10 six_env "AAPL" 5 six_headlines
           (rest_world empty_db 0) eq_refl).
Defined.

(** ** Insert-if-new on the news table *)

Lemma count_news_app (ticker headline : string) (rows : list news_row) (r : news_row) :
  count_news ticker headline (rows ++ [r])
  = (count_news ticker headline rows
     + if news_matches ticker headline r then 1 else 0)%nat.
Proof.
  unfold count_news. rewrite List.filter_app, List.length_app. cbn.
  destruct (news_matches ticker headline r); reflexivity.
Qed.

Lemma existsb_count_news (ticker headline : string) (rows : list news_row) :
  existsb (news_matches ticker headline) rows
  = negb (count_news ticker headline rows =? 0)%nat.
Proof.
  unfold count_news. induction rows as [|r rows IH]; cbn; [reflexivity|].
  destruct (news_matches ticker headline r); cbn; [reflexivity|exact IH].
Qed.

Lemma news_matches_row_of (ticker : string) (item : news_item) :
  news_matches ticker (ni_headline item) (news_row_of ticker item) = true.
Proof. unfold news_matches. cbn. rewrite !String.eqb_refl. reflexivity. Qed.

Lemma insert_news_if_new_run (ticker : string) (txn : database) (item : news_item)
    (w : world) :
  insert_news_if_new ok_conn ticker txn item w
  = (Ok (if select_news ticker (ni_headline item) txn then txn
         else insert_news (news_row_of ticker item) txn), w).
Proof.
  unfold insert_news_if_new, execute, M_bind, ret. cbn.
  destruct (select_news ticker (ni_headline item) txn); reflexivity.
Qed.

Lemma count_news_after (ticker : string) (item : news_item) (txn : database) :
  count_news ticker (ni_headline item)
    (news (if select_news ticker (ni_headline item) txn then txn
           else insert_news (news_row_of ticker item) txn))
  = Nat.max 1 (count_news ticker (ni_headline item) (news txn)).
Proof.
  unfold select_news. rewrite existsb_count_news.
  destruct (count_news ticker (ni_headline item) (news txn)) as [|n] eqn:Hn.
  - change (negb (0 =? 0)%nat) with false. cbv iota.
    unfold insert_news. cbn [news].
    rewrite count_news_app, Hn, news_matches_row_of. reflexivity.
  - change (negb (S n =? 0)%nat) with true. cbv iota. rewrite Hn. lia.
Qed.

Lemma select_news_after (ticker : string) (item : news_item) (txn : database) :
  select_news ticker (ni_headline item)
    (if select_news ticker (ni_headline item) txn then txn
     else insert_news (news_row_of ticker item) txn)
  = true.
Proof.
  pose proof (count_news_after ticker item txn) as Hc.
  unfold select_news at 1. rewrite existsb_count_news, Hc.
  destruct (count_news ticker (ni_headline item) (news txn)); reflexivity.
Qed.

Lemma stocks_after_insert (ticker : string) (item : news_item) (txn : database) :
  stocks (if select_news ticker (ni_headline item) txn then txn
          else insert_news (news_row_of ticker item) txn)
  = stocks txn.
Proof. destruct (select_news _ _ txn); reflexivity. Qed.

(** C5 as stated fails: from a table that already holds the pair twice, two
    further insertions leave two rows with that pair, not one. *)
Lemma duplicated_rows_stay_duplicated :
  count_news "AAPL" (ni_headline rally_item) (news doubled_db) = 2%nat
  ∧ match
      (for_fold [rally_item; rally_item] doubled_db
         (insert_news_if_new ok_conn "AAPL") (rest_world doubled_db 0)).1
    with
    | Ok txn => count_news "AAPL" (ni_headline rally_item) (news txn) = 2%nat
    | Raise _ => False
    end.
Proof. split; vm_compute; reflexivity. Qed.

(** C5, amended: from any store state the second insertion of a
    (ticker, headline) pair is a no-op; afterwards the table holds as many
    rows with that pair as before, and one if it held none, so exactly one
    whenever it held at most one before. *)
Theorem insert_news_if_new_twice (ticker : string) (item1 item2 : news_item)
    (txn : database) (w : world) :
  ni_headline item2 = ni_headline item1 →
  ∃ txn1,
    insert_news_if_new ok_conn ticker txn item1 w = (Ok txn1, w)
    ∧ insert_news_if_new ok_conn ticker txn1 item2 w = (Ok txn1, w)
    ∧ stocks txn1 = stocks txn
    ∧ count_news ticker (ni_headline item1) (news txn1)
      = Nat.max 1 (count_news ticker (ni_headline item1) (news txn))
    ∧ ((count_news ticker (ni_headline item1) (news txn) ≤ 1)%nat →
       count_news ticker (ni_headline item1) (news txn1) = 1%nat).
Proof.
  intros Hsame. eexists. rewrite insert_news_if_new_run.
  split; [reflexivity|].
  rewrite insert_news_if_new_run, Hsame, select_news_after.
  split; [reflexivity|]. split; [apply stocks_after_insert|].
  rewrite count_news_after. split; [reflexivity|]. lia.
Qed.

Lemma insert_news_if_new_twice_witness :
  ∃ txn1,
    insert_news_if_new ok_conn "AAPL" empty_db rally_item (rest_world empty_db 0)
    = (Ok txn1, rest_world empty_db 0)
    ∧ insert_news_if_new ok_conn "AAPL" txn1 rally_item (rest_world empty_db 0)
      = (Ok txn1, rest_world empty_db 0)
    ∧ stocks txn1 = stocks empty_db
    ∧ count_news "AAPL" (ni_headline rally_item) (news txn1)
      = Nat.max 1 (count_news "AAPL" (ni_headline rally_item) (news empty_db))
    ∧ ((count_news "AAPL" (ni_headline rally_item) (news empty_db) ≤ 1)%nat →
       count_news "AAPL" (ni_headline rally_item) (news txn1) = 1%nat).
Proof.
  exact (insert_news_if_new_twice "AAPL" rally_item rally_item empty_db
           (rest_world empty_db 0) eq_refl).
Defined.

(** A run of the worker's loop keeps the table free of duplicates for the
    pairs it inserts. *)
Lemma add_if_new_count_le_1 (ticker headline : string) (rows : list news_row)
    (item : news_item) :
  (count_news ticker headline rows ≤ 1)%nat →
  (count_news ticker headline (add_if_new ticker rows item) ≤ 1)%nat.
Proof.
  intros Hle. unfold add_if_new.
  destruct (existsb _ rows) eqn:Hex; [exact Hle|].
  rewrite count_news_app.
  destruct (news_matches ticker headline (news_row_of ticker item)) eqn:Hm; [|lia].
  unfold news_matches in Hm. cbn in Hm.
  apply andb_true_iff in Hm as [_ Hh]. apply String.eqb_eq in Hh. subst headline.
  rewrite existsb_count_news in Hex.
  destruct (count_news ticker (ni_headline item) rows); [lia|discriminate].
Qed.

(** ** The retention sweep *)

(** C6 as stated fails: the cutoff is taken from the clock when the sweep
    runs, not from the start of the cycle.  A row published thirty days minus
    one second before the cycle starts is not older than the cycle-start
    cutoff, yet the sweep that ends the cycle deletes it. *)
Lemma sweep_cutoff_is_read_at_sweep_time :
  news (db (rest_world recent_db cycle_start)) = [recent_row]
  ∧ ¬ (nw_published_at recent_row < cycle_start - timedelta_days 30)
  ∧ (worker_job quiet_env (rest_world recent_db cycle_start)).1 = Ok tt
  ∧ clock (worker_job quiet_env (rest_world recent_db cycle_start)).2
    = cycle_start + 24 * 1000000
  ∧ news (db (worker_job quiet_env (rest_world recent_db cycle_start)).2) = [].
Proof.
  split; [reflexivity|]. split; [vm_compute; discriminate|].
  repeat split; vm_compute; reflexivity.
Qed.

(** C6, amended: with a working store the sweep deletes exactly the news
    rows published before the time at which the sweep itself reads the clock
    minus thirty days; a row from 31 days before is deleted, a row from 29
    days before is kept, the kept rows and the stock table are unchanged. *)
Theorem cleanup_old_data_deletes_before_cutoff (env : environment) (w : world) :
  db_status env AtCleanup = DbOk →
  let out := cleanup_old_data env w in
  let cutoff := clock w - timedelta_days 30 in
  out.1 = Ok tt
  ∧ stocks (db out.2) = stocks (db w)
  ∧ news (db out.2)
    = List.filter (λ r, negb (nw_published_at r <? cutoff)) (news (db w))
  ∧ (∀ r, In r (news (db out.2)) ↔ In r (news (db w)) ∧ cutoff <= nw_published_at r)
  ∧ (∀ r, In r (news (db w)) →
          nw_published_at r = clock w - timedelta_days 31 →
          ¬ In r (news (db out.2)))
  ∧ (∀ r, In r (news (db w)) →
          nw_published_at r = clock w - timedelta_days 29 →
          In r (news (db out.2))).
Proof.
  intros Hok out cutoff. subst out. rewrite cleanup_old_data_run, Hok. cbn.
  assert (Hin : ∀ r, In r (List.filter (λ r, negb (nw_published_at r <? cutoff))
                             (news (db w)))
                     ↔ In r (news (db w)) ∧ cutoff <= nw_published_at r).
  { intros r. rewrite filter_In, negb_true_iff, Z.ltb_ge. reflexivity. }
  refine (conj eq_refl (conj eq_refl (conj eq_refl (conj Hin (conj _ _))))).
  - intros r Hr Hp H. apply Hin in H as [_ H]. subst cutoff.
    unfold timedelta_days in *. lia.
  - intros r Hr Hp. apply Hin. split; [exact Hr|]. subst cutoff.
    unfold timedelta_days in *. lia.
Qed.

Lemma cleanup_old_data_deletes_before_cutoff_witness :
  let out := cleanup_old_data quiet_env (rest_world recent_db cycle_start) in
  out.1 = Ok tt ∧ news (db out.2) = [recent_row].
Proof.
  pose proof (cleanup_old_data_deletes_before_cutoff quiet_env
                (rest_world recent_db cycle_start) eq_refl) as (H1 & _ & H3 & _).
  split; [exact H1|]. rewrite H3. vm_compute. reflexivity.
Defined.

(** ** The per-ticker loop *)

Section Loop.
Context (env : environment).

Lemma update_stock_data_never_raises (ticker : string) (w : world) :
  ∃ updated, (update_stock_data env ticker w).1 = Ok updated.
Proof.
  rewrite update_stock_data_run.
  destruct (stock_snapshot env ticker (clock w)) as [row|];
    destruct (db_status env (AtStock ticker)); eauto.
Qed.

Lemma update_news_sentiment_never_raises (ticker : string) (w : world) :
  ∃ updated, (update_news_sentiment env ticker w).1 = Ok updated.
Proof.
  rewrite update_news_sentiment_run.
  destruct (collected_news env ticker 5 (clock w)) as [|item items];
    destruct (db_status env (AtNews ticker)); eauto.
Qed.

Lemma loop_body_run (ticker : string) (w : world) :
  try_except
    (doM stock_updated <- update_stock_data env ticker;
     doM news_updated <- update_news_sentiment env ticker;
     time_sleep 1)
    (λ _, ret tt) w
  = (Ok tt, after_ticker env ticker w).
Proof.
  unfold try_except, M_bind, after_ticker.
  destruct (update_stock_data_never_raises ticker w) as [b1 H1].
  destruct (update_stock_data env ticker w) as [r1 w1]. cbn in H1. subst r1.
  destruct (update_news_sentiment_never_raises ticker w1) as [b2 H2].
  cbn [snd].
  destruct (update_news_sentiment env ticker w1) as [r2 w2]. cbn in H2. subst r2.
  reflexivity.
Qed.

Lemma worker_job_loop_run (tickers : list string) (w : world) :
  worker_job_loop env tickers w
  = (Ok tt, fold_left (λ w ticker, after_ticker env ticker w) tickers w).
Proof.
  unfold worker_job_loop. revert w.
  induction tickers as [|ticker tickers IH]; intros w; [reflexivity|].
  cbn [for_each fold_left]. unfold M_bind at 1.
  rewrite loop_body_run. apply IH.
Qed.

Lemma trace_after_ticker (ticker : string) (w : world) :
  trace (after_ticker env ticker w) = trace w ++ calls_for ticker.
Proof.
  unfold after_ticker. rewrite update_stock_data_run, update_news_sentiment_run.
  destruct (stock_snapshot env ticker (clock w)) as [row|];
    destruct (db_status env (AtStock ticker)); cbn;
    destruct (collected_news env ticker 5 (clock w)) as [|item items];
    destruct (db_status env (AtNews ticker)); cbn;
    rewrite <- app_assoc; reflexivity.
Qed.

Lemma clock_after_ticker (ticker : string) (w : world) :
  clock (after_ticker env ticker w) = clock w + 1000000.
Proof.
  unfold after_ticker. rewrite update_stock_data_run, update_news_sentiment_run.
  destruct (stock_snapshot env ticker (clock w)) as [row|];
    destruct (db_status env (AtStock ticker)); cbn;
    destruct (collected_news env ticker 5 (clock w)) as [|item items];
    destruct (db_status env (AtNews ticker)); cbn; reflexivity.
Qed.

Lemma stocks_after_ticker (ticker : string) (w : world) :
  stocks (db (after_ticker env ticker w))
  = match stock_snapshot env ticker (clock w), db_status env (AtStock ticker) with
    | Some row, DbOk => <[ticker := row]> (stocks (db w))
    | _, _ => stocks (db w)
    end.
Proof.
  unfold after_ticker. rewrite update_stock_data_run, update_news_sentiment_run.
  destruct (stock_snapshot env ticker (clock w)) as [row|];
    destruct (db_status env (AtStock ticker)); cbn;
    destruct (collected_news env ticker 5 (clock w)) as [|item items];
    destruct (db_status env (AtNews ticker)); cbn; reflexivity.
Qed.

Lemma news_after_ticker (ticker : string) (w : world) :
  news (db (after_ticker env ticker w))
  = match collected_news env ticker 5 (clock w), db_status env (AtNews ticker) with
    | item :: items, DbOk =>
        fold_left (add_if_new ticker) (item :: items) (news (db w))
    | _, _ => news (db w)
    end.
Proof.
  unfold after_ticker. rewrite update_stock_data_run, update_news_sentiment_run.
  destruct (stock_snapshot env ticker (clock w)) as [row|];
    destruct (db_status env (AtStock ticker)); cbn;
    destruct (collected_news env ticker 5 (clock w)) as [|item items];
    destruct (db_status env (AtNews ticker)); cbn; reflexivity.
Qed.

Lemma trace_after_loop (tickers : list string) (w : world) :
  trace (fold_left (λ w ticker, after_ticker env ticker w) tickers w)
  = trace w ++ flat_map calls_for tickers.
Proof.
  revert w. induction tickers as [|ticker tickers IH]; intros w; cbn [fold_left flat_map].
  - rewrite app_nil_r. reflexivity.
  - rewrite IH, trace_after_ticker, <- app_assoc. reflexivity.
Qed.

Lemma clock_after_loop (tickers : list string) (w : world) :
  clock (fold_left (λ w ticker, after_ticker env ticker w) tickers w)
  = clock w + Z.of_nat (length tickers) * 1000000.
Proof.
  revert w. induction tickers as [|ticker tickers IH]; intros w; cbn [fold_left length].
  - lia.
  - rewrite IH, clock_after_ticker. lia.
Qed.

End Loop.

(** *** What a later ticker finds in the store after the loop *)

Lemma add_if_new_keeps (ticker : string) (rows : list news_row) (item : news_item)
    (ticker' headline : string) :
  has_news ticker' headline rows →
  has_news ticker' headline (add_if_new ticker rows item).
Proof.
  unfold has_news, add_if_new. intros H.
  destruct (existsb (news_matches ticker (ni_headline item)) rows); [exact H|].
  rewrite existsb_app, H. reflexivity.
Qed.

Lemma fold_add_if_new_keeps (ticker : string) (items : list news_item)
    (rows : list news_row) (ticker' headline : string) :
  has_news ticker' headline rows →
  has_news ticker' headline (fold_left (add_if_new ticker) items rows).
Proof.
  revert rows. induction items as [|item items IH]; intros rows H; [exact H|].
  cbn [fold_left]. apply IH, add_if_new_keeps, H.
Qed.

Lemma add_if_new_has (ticker : string) (rows : list news_row) (item : news_item) :
  has_news ticker (ni_headline item) (add_if_new ticker rows item).
Proof.
  unfold has_news, add_if_new.
  destruct (existsb (news_matches ticker (ni_headline item)) rows) eqn:H; [exact H|].
  rewrite existsb_app. cbn. rewrite news_matches_row_of.
  apply orb_true_iff. right. reflexivity.
Qed.

Lemma fold_add_if_new_has (ticker : string) (items : list news_item)
    (rows : list news_row) (item : news_item) :
  In item items →
  has_news ticker (ni_headline item) (fold_left (add_if_new ticker) items rows).
Proof.
  revert rows. induction items as [|item' items IH]; intros rows Hin; [destruct Hin|].
  cbn [fold_left]. destruct Hin as [->|Hin].
  - apply fold_add_if_new_keeps, add_if_new_has.
  - apply IH, Hin.
Qed.

Section Isolation.
Context (env : environment) (B : string).

Section Stock.
Context (info : dict) (hist : list float) (current_price : float)
        (garp_score growth_score value_score : Z).
Hypothesis provider_info : yf_info env B = Ok info.
Hypothesis provider_hist : yf_history env B "5d" = Ok hist.
Hypothesis last_close : last hist = Some current_price.
Hypothesis simple_scores :
  update_stock_data_scores (metric info "trailingPE") info
  = Ok (garp_score, growth_score, value_score).
Hypothesis store_works : db_status env (AtStock B) = DbOk.

Lemma stock_snapshot_of_B (now : Z) :
  stock_snapshot env B now
  = Some {| st_company_name := dict_get info "longName" (PyStr B);
            st_current_price := current_price;
            st_pe_ratio := metric info "trailingPE";
            st_market_cap := metric info "marketCap";
            st_garp_score := garp_score;
            st_growth_score := growth_score;
            st_value_score := value_score;
            st_updated_at := now |}.
Proof.
  unfold stock_snapshot.
  rewrite provider_info, provider_hist, last_close, simple_scores. reflexivity.
Qed.

Lemma has_stock_after_ticker (since : Z) (ticker : string) (w : world) :
  since <= clock w →
  ticker = B
  ∨ has_stock B info current_price garp_score growth_score value_score since
      (stocks (db w)) →
  has_stock B info current_price garp_score growth_score value_score since
    (stocks (db (after_ticker env ticker w))).
Proof.
  intros Hclock H. rewrite stocks_after_ticker.
  destruct (decide (ticker = B)) as [->|Hne].
  - rewrite stock_snapshot_of_B, store_works. eexists.
    split; [apply lookup_insert_eq|]. split; [|exact Hclock].
    repeat split.
  - destruct H as [Heq|H]; [contradiction|].
    destruct (stock_snapshot env ticker (clock w)) as [row|]; [|exact H].
    destruct (db_status env (AtStock ticker)); try exact H.
    destruct H as (r & Hr & Hshows & Hsince). exists r.
    rewrite lookup_insert_ne by exact Hne. auto.
Qed.

Lemma has_stock_after_loop (since : Z) (tickers : list string) (w : world) :
  since <= clock w →
  B ∈ tickers
  ∨ has_stock B info current_price garp_score growth_score value_score since
      (stocks (db w)) →
  has_stock B info current_price garp_score growth_score value_score since
    (stocks (db (fold_left (λ w ticker, after_ticker env ticker w) tickers w))).
Proof.
  revert w. induction tickers as [|ticker tickers IH]; intros w Hclock H.
  - destruct H as [H|H]; [inversion H|exact H].
  - cbn [fold_left]. apply IH.
    + rewrite clock_after_ticker. lia.
    + destruct H as [H|H].
      * apply elem_of_cons in H as [Heq|H]; [symmetry in Heq; subst ticker|left; exact H].
        right. apply has_stock_after_ticker; [exact Hclock|left; reflexivity].
      * right. apply has_stock_after_ticker; [exact Hclock|right; exact H].
Qed.

End Stock.

Section News.
Context (candidates : list string) (headline : string).
Hypothesis page : news_page env B = Ok (200, candidates).
Hypothesis among_first_five : In headline (take 5 candidates).
Hypothesis long_enough : longer_than_10 headline = true.
Hypothesis store_works : db_status env (AtNews B) = DbOk.

Lemma has_news_after_ticker (ticker : string) (w : world) :
  ticker = B ∨ has_news B headline (news (db w)) →
  has_news B headline (news (db (after_ticker env ticker w))).
Proof.
  intros H. rewrite news_after_ticker.
  destruct (decide (ticker = B)) as [->|Hne].
  - assert (Hin : In (scored_headline env (clock w) headline)
                    (collected_news env B 5 (clock w))).
    { unfold collected_news. rewrite page. cbn.
      apply in_map, filter_In. split; assumption. }
    rewrite store_works.
    destruct (collected_news env B 5 (clock w)) as [|item items];
      [destruct Hin|].
    exact (fold_add_if_new_has B (item :: items) (news (db w)) _ Hin).
  - destruct H as [Heq|H]; [contradiction|].
    destruct (collected_news env ticker 5 (clock w)) as [|item items];
      [exact H|].
    destruct (db_status env (AtNews ticker)); try exact H.
    apply fold_add_if_new_keeps, H.
Qed.

Lemma has_news_after_loop (tickers : list string) (w : world) :
  B ∈ tickers ∨ has_news B headline (news (db w)) →
  has_news B headline
    (news (db (fold_left (λ w ticker, after_ticker env ticker w) tickers w))).
Proof.
  revert w. induction tickers as [|ticker tickers IH]; intros w H.
  - destruct H as [H|H]; [inversion H|exact H].
  - cbn [fold_left]. apply IH. destruct H as [H|H].
    + apply elem_of_cons in H as [Heq|H]; [symmetry in Heq; subst ticker|left; exact H].
      right. apply has_news_after_ticker. left; reflexivity.
    + right. apply has_news_after_ticker. right; exact H.
Qed.

End News.

End Isolation.

(** C8: in the per-ticker loop, whatever happens while ticker A is fetched,
    scored or persisted, the loop ends normally and has called both providers
    for every ticker in order, so also for a ticker B that comes after A;
    and when B's own fetch, scoring and store accesses work, B's row and B's
    headlines are in the store when the loop ends. *)
Theorem worker_job_loop_isolates_failures (env : environment)
    (pre mid post : list string) (A B : string) (w : world) :
  let tickers := pre ++ A :: mid ++ B :: post in
  let out := worker_job_loop env tickers w in
  out.1 = Ok tt
  ∧ trace out.2 = trace w ++ flat_map calls_for tickers
  ∧ (∀ info hist current_price garp_score growth_score value_score,
       yf_info env B = Ok info →
       yf_history env B "5d" = Ok hist →
       last hist = Some current_price →
       update_stock_data_scores (metric info "trailingPE") info
       = Ok (garp_score, growth_score, value_score) →
       db_status env (AtStock B) = DbOk →
       has_stock B info current_price garp_score growth_score value_score
         (clock w) (stocks (db out.2)))
  ∧ (∀ candidates headline,
       news_page env B = Ok (200, candidates) →
       In headline (take 5 candidates) →
       longer_than_10 headline = true →
       db_status env (AtNews B) = DbOk →
       has_news B headline (news (db out.2))).
Proof.
  intros tickers out. subst out. rewrite worker_job_loop_run. cbn [fst snd].
  assert (HB : B ∈ tickers).
  { subst tickers. rewrite elem_of_app, elem_of_cons, elem_of_app, elem_of_cons. auto. }
  split; [reflexivity|]. split; [apply trace_after_loop|]. split.
  - intros info hist current_price g gr v Hinfo Hhist Hlast Hscores Hdb.
    apply (has_stock_after_loop env B info hist current_price g gr v
             Hinfo Hhist Hlast Hscores Hdb); [lia|left; exact HB].
  - intros candidates headline Hpage Hin Hlong Hdb.
    apply (has_news_after_loop env B candidates headline Hpage Hin Hlong Hdb).
    left; exact HB.
Qed.

Lemma worker_job_loop_isolates_failures_witness :
  let out := worker_job_loop msft_only_env ["AAPL"; "MSFT"] (rest_world empty_db 0) in
  yf_info msft_only_env "AAPL" = Raise ProviderError
  ∧ news_page msft_only_env "AAPL" = Raise HttpError
  ∧ out.1 = Ok tt
  ∧ trace out.2 = [YfCall "AAPL"; NewsCall "AAPL"; YfCall "MSFT"; NewsCall "MSFT"]
  ∧ has_stock "MSFT" msft_info 412.25 3 3 1 0 (stocks (db out.2))
  ∧ has_news "MSFT" "Microsoft beats revenue estimates" (news (db out.2)).
Proof.
  pose proof (worker_job_loop_isolates_failures msft_only_env [] [] [] "AAPL" "MSFT"
                (rest_world empty_db 0)) as (H1 & H2 & H3 & H4).
  split; [reflexivity|]. split; [reflexivity|]. split; [exact H1|].
  split; [exact H2|]. split.
  - exact (H3 msft_info [410.5%float; 412.25%float] 412.25%float 3 3 1
             eq_refl eq_refl eq_refl eq_refl eq_refl).
  - exact (H4 ["Microsoft beats revenue estimates"]
             "Microsoft beats revenue estimates" eq_refl (or_introl eq_refl)
             eq_refl eq_refl).
Defined.

(** ** The ticker universe *)

Lemma cleanup_old_data_never_raises (env : environment) (w : world) :
  (cleanup_old_data env w).1 = Ok tt.
Proof.
  rewrite cleanup_old_data_run. destruct (db_status env AtCleanup); reflexivity.
Qed.

(** A cycle ends normally, whatever the providers and the store do. *)
Lemma worker_job_never_raises (env : environment) (w : world) :
  (worker_job env w).1 = Ok tt.
Proof.
  unfold worker_job. unfold M_bind at 1. rewrite worker_job_tickers_run.
  destruct (db_status env AtTickers);
    unfold M_bind; rewrite worker_job_loop_run; apply cleanup_old_data_never_raises.
Qed.

Lemma select_distinct_tickers_dom (d : database) (t : string) :
  t ∈ select_distinct_tickers d ↔ t ∈ dom (stocks d).
Proof.
  unfold select_distinct_tickers. rewrite dom_alt, elem_of_list_to_set. reflexivity.
Qed.

(** C9: when no connection can be obtained, or the distinct-tickers query
    fails, the tickers of the cycle are exactly the default list and nothing
    is raised; when the store answers they are, without repetition, the
    default tickers together with the tickers of the stock table.  The store
    is left as it was, and the cycle as a whole ends normally. *)
Theorem worker_job_tickers_fallback (env : environment) (w : world) :
  let out := worker_job_tickers env w in
  out.2 = w
  ∧ (db_status env AtTickers = ConnectFails ∨ db_status env AtTickers = StatementFails →
     out.1 = Ok DEFAULT_TICKERS)
  ∧ (db_status env AtTickers = DbOk →
     (∀ X, set_order env X ≡ₚ elements X) →
     ∃ tickers,
       out.1 = Ok tickers
       ∧ NoDup tickers
       ∧ ∀ t, t ∈ tickers ↔ t ∈ DEFAULT_TICKERS ∨ t ∈ dom (stocks (db w)))
  ∧ (worker_job env w).1 = Ok tt.
Proof.
  intros out. subst out. rewrite worker_job_tickers_run.
  split; [destruct (db_status env AtTickers); reflexivity|].
  split; [intros [H|H]; rewrite H; reflexivity|].
  split; [|apply worker_job_never_raises].
  intros Hok Horder. rewrite Hok. eexists. split; [reflexivity|]. split.
  - rewrite Horder. apply NoDup_elements.
  - intros t. rewrite Horder, elem_of_elements, elem_of_list_to_set, elem_of_app.
    rewrite select_distinct_tickers_dom. reflexivity.
Qed.

Lemma worker_job_tickers_fallback_witness :
  ∃ tickers,
    (worker_job_tickers quiet_env (rest_world shop_db 0)).1 = Ok tickers
    ∧ NoDup tickers
    ∧ ∀ t, t ∈ tickers ↔ t ∈ DEFAULT_TICKERS ∨ t ∈ dom (stocks shop_db).
Proof.
  pose proof (worker_job_tickers_fallback quiet_env (rest_world shop_db 0))
    as (_ & _ & H & _).
  exact (H eq_refl (λ X, reflexivity (elements X))).
Defined.

(** The default list has no repetition, so the fallback is a set of 24. *)
Lemma DEFAULT_TICKERS_NoDup : NoDup DEFAULT_TICKERS.
Proof. apply (bool_decide_unpack _). vm_compute. reflexivity. Qed.

(** ** Rows written by the worker *)

Lemma stock_snapshot_scores (env : environment) (ticker : string) (now : Z)
    (row : stock_row) :
  stock_snapshot env ticker now = Some row →
  (st_garp_score row = 1 ∨ st_garp_score row = 3)
  ∧ (st_growth_score row = 1 ∨ st_growth_score row = 3)
  ∧ (st_value_score row = 1 ∨ st_value_score row = 3).
Proof.
  unfold stock_snapshot.
  destruct (yf_info env ticker) as [info|]; [|discriminate].
  destruct (yf_history env ticker "5d") as [hist|]; [|discriminate].
  destruct (last hist) as [current_price|]; [|discriminate].
  destruct (update_stock_data_scores _ info) as [[[g gr] v]|] eqn:Hs; [|discriminate].
  intros [= <-]. cbn.
  apply update_stock_data_scores_shape in Hs as (c1 & c2 & c3 & -> & -> & ->).
  auto using simple_score_1_or_3.
Qed.

(** C10: the worker's simplified garp, growth and value scores are each 1 or
    3 whenever they are computed (they are, as soon as the PE ratio and the
    revenue growth are numbers), and a call of [update_stock_data] either
    writes one row, for its ticker and with scores among 1 and 3, or leaves
    the store as it was. *)
Theorem worker_scores_are_1_or_3 (env : environment) (ticker : string) (w : world)
    (pe_ratio : pyval) (info : dict) :
  match update_stock_data_scores pe_ratio info with
  | Ok (garp_score, growth_score, value_score) =>
      (garp_score = 1 ∨ garp_score = 3)
      ∧ (growth_score = 1 ∨ growth_score = 3)
      ∧ (value_score = 1 ∨ value_score = 3)
  | Raise _ =>
      is_num pe_ratio && is_num (dict_get info "revenueGrowth" zero) = false
  end
  ∧ match (update_stock_data env ticker w).1 with
    | Ok true =>
        ∃ row,
          stocks (db (update_stock_data env ticker w).2) !! ticker = Some row
          ∧ (st_garp_score row = 1 ∨ st_garp_score row = 3)
          ∧ (st_growth_score row = 1 ∨ st_growth_score row = 3)
          ∧ (st_value_score row = 1 ∨ st_value_score row = 3)
          ∧ ∀ t, t ≠ ticker →
                 stocks (db (update_stock_data env ticker w).2) !! t
                 = stocks (db w) !! t
    | _ => db (update_stock_data env ticker w).2 = db w
    end.
Proof.
  split.
  - destruct (update_stock_data_scores pe_ratio info) as [[[g gr] v]|e] eqn:H.
    + apply update_stock_data_scores_shape in H as (c1 & c2 & c3 & -> & -> & ->).
      auto using simple_score_1_or_3.
    + exact (update_stock_data_scores_raises _ _ _ H).
  - rewrite update_stock_data_run.
    destruct (stock_snapshot env ticker (clock w)) as [row|] eqn:Hrow;
      [|reflexivity].
    destruct (db_status env (AtStock ticker)); try reflexivity.
    cbn. exists row. split; [apply lookup_insert_eq|].
    destruct (stock_snapshot_scores _ _ _ _ Hrow) as (Hg & Hgr & Hv).
    repeat split; try assumption.
    intros t Hne. apply lookup_insert_ne. congruence.
Qed.

(** ** Upserts on an existing ticker *)

(** The worker's statement replaces the stored row by the new one. *)
Lemma upsert_stock_worker_row (ticker : string) (excluded : stock_row) (d : database) :
  stocks (upsert_stock_worker ticker excluded d) !! ticker = Some excluded.
Proof.
  unfold upsert_stock_worker. cbn. rewrite lookup_insert_eq.
  destruct (stocks d !! ticker); destruct excluded; reflexivity.
Qed.

(** The screen's statement keeps the stored company name. *)
Lemma upsert_stock_screen_conflict (ticker : string) (excluded old : stock_row)
    (d : database) :
  stocks d !! ticker = Some old →
  stocks (upsert_stock_screen ticker excluded d) !! ticker
  = Some {| st_company_name := st_company_name old;
            st_current_price := st_current_price excluded;
            st_pe_ratio := st_pe_ratio excluded;
            st_market_cap := st_market_cap excluded;
            st_garp_score := st_garp_score excluded;
            st_growth_score := st_growth_score excluded;
            st_value_score := st_value_score excluded;
            st_updated_at := st_updated_at excluded |}.
Proof.
  intros Hold. unfold upsert_stock_screen. cbn. rewrite lookup_insert_eq, Hold.
  reflexivity.
Qed.

(** When the worker reports an update, the stored row is the new snapshot in
    every field, whatever was stored before. *)
Lemma update_stock_data_overwrites_every_field (env : environment)
    (ticker : string) (w : world) :
  (update_stock_data env ticker w).1 = Ok true →
  ∃ row, stock_snapshot env ticker (clock w) = Some row
         ∧ stocks (db (update_stock_data env ticker w).2) !! ticker = Some row.
Proof.
  rewrite update_stock_data_run.
  destruct (stock_snapshot env ticker (clock w)) as [row|]; [|discriminate].
  destruct (db_status env (AtStock ticker)); try discriminate.
  intros _. exists row. split; [reflexivity|]. apply lookup_insert_eq.
Qed.

(** When the screen stores its result over an existing row, the company
    name of that row survives. *)
Lemma screen_stock_keeps_company_name (env : environment) (ticker : string)
    (w : world) (info : dict) (hist : list float) (current_price : float)
    (old : stock_row) :
  yf_info env (upper env ticker) = Ok info →
  yf_history env (upper env ticker) "1y" = Ok hist →
  last hist = Some current_price →
  db_status env (AtScreen (upper env ticker)) = DbOk →
  stocks (db w) !! upper env ticker = Some old →
  st_company_name <$> stocks (db (screen_stock env ticker w).2) !! upper env ticker
  = Some (st_company_name old).
Proof.
  intros Hinfo Hhist Hlast Hdb Hold.
  unfold screen_stock, try_except, M_bind, emit, lift, get_db_connection.
  rewrite Hinfo, Hhist, Hlast, Hdb. cbn.
  rewrite lookup_insert_eq, Hold. reflexivity.
Qed.

(** C4 on the failing input: the store holds an AAPL row named "AAPL"; the
    provider now gives the long name "Apple Inc.".  The screen overwrites
    price, PE ratio, market cap, scores and timestamp but leaves the company
    name "AAPL"; the worker's upsert of the same snapshot stores
    "Apple Inc.". *)
Theorem screen_stock_leaves_stale_company_name :
  stocks (db (rest_world stale_db 5000)) !! "AAPL" = Some stale_row
  ∧ dict_get apple_info "longName" (PyStr "AAPL") = PyStr "Apple Inc."
  ∧ stocks (db (screen_stock apple_env "aapl" (rest_world stale_db 5000)).2) !! "AAPL"
    = Some {| st_company_name := PyStr "AAPL";
              st_current_price := 191.25;
              st_pe_ratio := PyNum 18;
              st_market_cap := PyNum 3000000000000;
              st_garp_score := 5;
              st_growth_score := 2;
              st_value_score := 2;
              st_updated_at := 5000 |}
  ∧ stocks (db (update_stock_data apple_env "AAPL" (rest_world stale_db 5000)).2) !! "AAPL"
    = Some {| st_company_name := PyStr "Apple Inc.";
              st_current_price := 191.25;
              st_pe_ratio := PyNum 18;
              st_market_cap := PyNum 3000000000000;
              st_garp_score := 3;
              st_growth_score := 3;
              st_value_score := 1;
              st_updated_at := 5000 |}.
Proof. repeat split; vm_compute; reflexivity. Qed.


(** * Further properties of the code *)

(** ** The screen's scores and its recommendation *)

(** On numeric fundamentals the screen's answer is the three formulas. *)
Lemma calculate_screening_scores_numeric (info : dict) (pe peg pb roe rg : float) :
  metric info "trailingPE" = PyNum pe →
  metric info "pegRatio" = PyNum peg →
  metric info "priceToBook" = PyNum pb →
  metric info "returnOnEquity" = PyNum roe →
  metric info "revenueGrowth" = PyNum rg →
  calculate_screening_scores info
  = {| sc_garp_score := Spec.garp pe peg rg;
       sc_growth_score := Spec.growth rg roe;
       sc_value_score := Spec.value pe pb;
       sc_pe_ratio := PyNum pe;
       sc_peg_ratio := PyNum peg;
       sc_price_to_book := PyNum pb;
       sc_roe := PyNum roe;
       sc_revenue_growth := PyNum rg |}.
Proof.
  intros Hpe Hpeg Hpb Hroe Hrg.
  unfold calculate_screening_scores, calculate_screening_scores_try.
  rewrite Hpe, Hpeg, Hpb, Hroe, Hrg.
  rewrite garp_block_num, growth_block_num, value_block_num. cbn.
  pose proof (spec_garp_range pe peg rg) as [_ Hg].
  pose proof (spec_growth_range rg roe) as [_ Hgr].
  pose proof (spec_value_range pe pb) as [_ Hv].
  rewrite !Z.min_l by assumption. reflexivity.
Qed.

Lemma garp_without_positive_pe (pe peg rg : float) :
  flt 0 pe = false → Spec.garp pe peg rg <= 2.
Proof.
  intros H. unfold Spec.garp, Spec.garp_base, Spec.garp_bonus. rewrite H. cbn.
  split_ifs; lia.
Qed.

Lemma value_without_positive_pe (pe pb : float) :
  flt 0 pe = false → Spec.value pe pb <= 2.
Proof.
  intros H. unfold Spec.value. rewrite H. cbn. split_ifs; lia.
Qed.

(** X1: a stock whose PE ratio is missing, zero or negative scores at most
    2 + 5 + 2 = 9 in total on the screen, so it is never rated Strong Buy. *)
Theorem no_strong_buy_without_positive_pe (info : dict) (pe peg pb roe rg : float) :
  metric info "trailingPE" = PyNum pe →
  metric info "pegRatio" = PyNum peg →
  metric info "priceToBook" = PyNum pb →
  metric info "returnOnEquity" = PyNum roe →
  metric info "revenueGrowth" = PyNum rg →
  flt 0 pe = false →
  sc_garp_score (calculate_screening_scores info)
  + sc_growth_score (calculate_screening_scores info)
  + sc_value_score (calculate_screening_scores info) <= 9
  ∧ get_recommendation (calculate_screening_scores info) ≠ ("Strong Buy", "High").
Proof.
  intros Hpe Hpeg Hpb Hroe Hrg Hneg.
  rewrite (calculate_screening_scores_numeric info pe peg pb roe rg) by assumption.
  pose proof (garp_without_positive_pe pe peg rg Hneg) as Hg.
  pose proof (value_without_positive_pe pe pb Hneg) as Hv.
  pose proof (spec_growth_range rg roe) as [_ Hgr].
  unfold get_recommendation. cbn [sc_garp_score sc_growth_score sc_value_score].
  split; [lia|].
  destruct (12 <=? _) eqn:H12; [apply Z.leb_le in H12; lia|].
  destruct (9 <=? _); [discriminate|]. destruct (6 <=? _); discriminate.
Qed.

Lemma no_strong_buy_without_positive_pe_witness :
  sc_garp_score (calculate_screening_scores no_pe_info)
  + sc_growth_score (calculate_screening_scores no_pe_info)
  + sc_value_score (calculate_screening_scores no_pe_info) <= 9
  ∧ get_recommendation (calculate_screening_scores no_pe_info) ≠ ("Strong Buy", "High").
Proof.
  exact (no_strong_buy_without_positive_pe no_pe_info 0 0 1.2 0.3 0.2
           eq_refl eq_refl eq_refl eq_refl eq_refl eq_refl).
Defined.

(** X2: when the provider sends the PE ratio as a string, the first
    comparison raises and the screen answers with every score and every
    metric at zero, also the growth score, which does not read the PE ratio;
    the recommendation is then Sell with low confidence. *)
Theorem string_pe_zeroes_every_score (info : dict) (s : string) :
  metric info "trailingPE" = PyStr s →
  calculate_screening_scores info = zero_scores
  ∧ get_recommendation (calculate_screening_scores info) = ("Sell", "Low").
Proof.
  intros Hpe.
  assert (H : calculate_screening_scores info = zero_scores).
  { unfold calculate_screening_scores, calculate_screening_scores_try.
    rewrite Hpe. reflexivity. }
  rewrite H. split; reflexivity.
Qed.

Lemma string_pe_zeroes_every_score_witness :
  calculate_screening_scores infinity_info = zero_scores
  ∧ get_recommendation (calculate_screening_scores infinity_info) = ("Sell", "Low").
Proof. exact (string_pe_zeroes_every_score infinity_info "Infinity" eq_refl). Defined.

(** X3: the screen rates a stock Strong Buy only if each of its three
    scores is at least 2. *)
Theorem strong_buy_needs_every_score (info : dict) :
  get_recommendation (calculate_screening_scores info) = ("Strong Buy", "High") →
  2 <= sc_garp_score (calculate_screening_scores info)
  ∧ 2 <= sc_growth_score (calculate_screening_scores info)
  ∧ 2 <= sc_value_score (calculate_screening_scores info).
Proof.
  pose proof (calculate_screening_scores_range info) as (Hg & Hgr & Hv).
  unfold score_in_range in *. unfold get_recommendation.
  destruct (12 <=? _) eqn:H12.
  - intros _. apply Z.leb_le in H12. lia.
  - destruct (9 <=? _); [discriminate|]. destruct (6 <=? _); discriminate.
Qed.

Lemma strong_buy_needs_every_score_witness :
  get_recommendation (calculate_screening_scores star_info) = ("Strong Buy", "High")
  ∧ 2 <= sc_garp_score (calculate_screening_scores star_info)
  ∧ 2 <= sc_growth_score (calculate_screening_scores star_info)
  ∧ 2 <= sc_value_score (calculate_screening_scores star_info).
Proof.
  split; [reflexivity|]. exact (strong_buy_needs_every_score star_info eq_refl).
Defined.

(** ** Tickers that the worker skips *)

Lemma update_stock_data_scores_non_numeric (pe_ratio : pyval) (info : dict) :
  is_num pe_ratio && is_num (dict_get info "revenueGrowth" zero) = false →
  update_stock_data_scores pe_ratio info = Raise TypeError.
Proof.
  unfold update_stock_data_scores, py_between, py_and, py_gt.
  destruct pe_ratio as [|pe|s]; [reflexivity| |reflexivity].
  destruct (dict_get info "revenueGrowth" zero) as [|rg|s]; [|discriminate|];
    intros _; cbn; destruct (PrimFloat.ltb 0 pe); reflexivity.
Qed.

(** X4: when the provider's PE ratio is a string, or its revenue growth is
    present but [None] or a string, the worker's score computation raises
    [TypeError]: [update_stock_data] returns False after its one call to the
    provider and leaves the store, the clock and every stored row as they
    were. *)
Theorem update_stock_data_skips_non_numeric (env : environment) (ticker : string)
    (info : dict) (w : world) :
  yf_info env ticker = Ok info →
  is_num (metric info "trailingPE")
  && is_num (dict_get info "revenueGrowth" zero) = false →
  update_stock_data env ticker w = (Ok false, log_call (YfCall ticker) w).
Proof.
  intros Hinfo Hnum. rewrite update_stock_data_run.
  unfold stock_snapshot. rewrite Hinfo.
  rewrite (update_stock_data_scores_non_numeric _ _ Hnum).
  destruct (yf_history env ticker "5d") as [hist|]; [|reflexivity].
  destruct (last hist); reflexivity.
Qed.

Lemma update_stock_data_skips_non_numeric_witness :
  update_stock_data no_growth_env "AAPL" (rest_world stale_db 5000)
  = (Ok false, log_call (YfCall "AAPL") (rest_world stale_db 5000)).
Proof.
  exact (update_stock_data_skips_non_numeric no_growth_env "AAPL" no_growth_info
           (rest_world stale_db 5000) eq_refl eq_refl).
Defined.

(** X5: a ticker for which the provider raises, or has no price history, is
    skipped: [update_stock_data] returns False, raises nothing, and leaves
    the store as it was. *)
Theorem update_stock_data_skips_missing_data (env : environment) (ticker : string)
    (w : world) :
  (∃ e, yf_info env ticker = Raise e)
  ∨ (∃ e, yf_history env ticker "5d" = Raise e)
  ∨ yf_history env ticker "5d" = Ok [] →
  update_stock_data env ticker w = (Ok false, log_call (YfCall ticker) w).
Proof.
  intros H. rewrite update_stock_data_run.
  assert (Hnone : stock_snapshot env ticker (clock w) = None).
  { unfold stock_snapshot. destruct H as [[e H]|[[e H]|H]]; rewrite H.
    - reflexivity.
    - destruct (yf_info env ticker); reflexivity.
    - destruct (yf_info env ticker); reflexivity. }
  rewrite Hnone. reflexivity.
Qed.

Lemma update_stock_data_skips_missing_data_witness :
  update_stock_data quiet_env "AAPL" (rest_world stale_db 5000)
  = (Ok false, log_call (YfCall "AAPL") (rest_world stale_db 5000)).
Proof.
  exact (update_stock_data_skips_missing_data quiet_env "AAPL"
           (rest_world stale_db 5000)
           (or_introl (ex_intro _ ProviderError eq_refl))).
Defined.


(** ** The answer of the screen *)

(** X6: what [screen_stock] answers depends on the provider alone: 500
    when the provider raises, 404 when there is no price history, and
    otherwise a 200 with the scores and the recommendation, whether the store
    works or not.  It calls the provider once, never raises, leaves the news
    table and the rows of other tickers alone, and changes nothing when the
    store fails. *)
Theorem screen_stock_answer_ignores_store (env : environment) (ticker : string)
    (w : world) :
  let out := screen_stock env ticker w in
  out.1 = Ok (screen_answer env ticker)
  ∧ trace out.2 = trace w ++ [YfCall (upper env ticker)]
  ∧ clock out.2 = clock w
  ∧ news (db out.2) = news (db w)
  ∧ (∀ t, t ≠ upper env ticker → stocks (db out.2) !! t = stocks (db w) !! t)
  ∧ (db_status env (AtScreen (upper env ticker)) ≠ DbOk → db out.2 = db w).
Proof.
  unfold screen_stock, screen_answer, try_except, M_bind, emit, lift,
    get_db_connection.
  destruct (yf_info env (upper env ticker)) as [info|]; cbn;
    [|repeat split; congruence].
  destruct (yf_history env (upper env ticker) "1y") as [hist|]; cbn;
    [|repeat split; congruence].
  destruct (last hist) as [current_price|]; cbn; [|repeat split; congruence].
  destruct (db_status env (AtScreen (upper env ticker))); cbn;
    repeat split; try congruence.
  intros t Hne. apply lookup_insert_ne. congruence.
Qed.

(** ** Reading a stored row back *)

Lemma upper_ascii_idempotent (c : Ascii.ascii) :
  upper_ascii (upper_ascii c) = upper_ascii c.
Proof. destruct c as [[] [] [] [] [] [] [] []]; reflexivity. Qed.

Lemma upper_ascii_stays_ascii (c : Ascii.ascii) :
  (Ascii.N_of_ascii (upper_ascii c) <? 128)%N = (Ascii.N_of_ascii c <? 128)%N.
Proof. destruct c as [[] [] [] [] [] [] [] []]; reflexivity. Qed.

Lemma ascii_upper_stays_ascii (s : string) : is_ascii (ascii_upper s) = is_ascii s.
Proof.
  induction s as [|c s IH]; [reflexivity|].
  cbn [ascii_upper is_ascii]. rewrite upper_ascii_stays_ascii, IH. reflexivity.
Qed.

Lemma ascii_upper_idempotent (s : string) : ascii_upper (ascii_upper s) = ascii_upper s.
Proof.
  induction s as [|c s IH]; [reflexivity|].
  cbn [ascii_upper]. rewrite upper_ascii_idempotent, IH. reflexivity.
Qed.

(** Upper-casing an ASCII string twice is upper-casing it once. *)
Lemma upper_idempotent (env : environment) (s : string) :
  is_ascii s = true → upper env (upper env s) = upper env s.
Proof.
  intros Hs. unfold upper. rewrite Hs, ascii_upper_stays_ascii, Hs.
  apply ascii_upper_idempotent.
Qed.

Lemma get_stock_data_run (env : environment) (store : db_outcome) (ticker : string)
    (w : world) :
  get_stock_data env store ticker w
  = (Ok match store with
        | DbOk =>
            match stocks (db w) !! upper env ticker with
            | Some row => DataJson (upper env ticker) row
            | None => DataError404
            end
        | _ => DataError500
        end, w).
Proof.
  unfold get_stock_data, try_except, M_bind, api_get_db_connection, select_stock.
  destruct store; cbn; try reflexivity.
  destruct (stocks (db w) !! upper env ticker); reflexivity.
Qed.

(** X7: [/data/<ticker>] only reads: it leaves the world as it was, never
    raises, answers 500 when the store fails, and with a working store
    answers the stored row of the upper-cased ticker, or 404 exactly when
    there is none; for a ticker of ASCII characters, the request in upper
    case gets the same answer. *)
Theorem get_stock_data_reads_upper_cased (env : environment) (store : db_outcome)
    (ticker : string) (w : world) :
  (get_stock_data env store ticker w).2 = w
  ∧ (store ≠ DbOk → (get_stock_data env store ticker w).1 = Ok DataError500)
  ∧ (store = DbOk →
     (∀ row, stocks (db w) !! upper env ticker = Some row →
             (get_stock_data env store ticker w).1 = Ok (DataJson (upper env ticker) row))
     ∧ ((get_stock_data env store ticker w).1 = Ok DataError404
        ↔ stocks (db w) !! upper env ticker = None))
  ∧ (is_ascii ticker = true →
     get_stock_data env store (upper env ticker) w
     = get_stock_data env store ticker w).
Proof.
  rewrite !get_stock_data_run. cbn.
  split; [reflexivity|]. split; [destruct store; congruence|].
  split; [|intros Hascii; rewrite (upper_idempotent env ticker Hascii); reflexivity].
  intros ->. split.
  - intros row Hrow. rewrite Hrow. reflexivity.
  - destruct (stocks (db w) !! upper env ticker); split; congruence.
Qed.

(** X8: after a screen that found price history, with a working store,
    [/data] for the same ticker in any letter case answers a row whose
    price, PE ratio and three scores are those of the screen's answer and
    whose timestamp is the time of the screen. *)
Theorem screen_then_data_round_trip (env : environment) (ticker ticker' : string)
    (w : world) (info : dict) (hist : list float) (current_price : float) :
  yf_info env (upper env ticker) = Ok info →
  yf_history env (upper env ticker) "1y" = Ok hist →
  last hist = Some current_price →
  db_status env (AtScreen (upper env ticker)) = DbOk →
  upper env ticker' = upper env ticker →
  ∃ row,
    (get_stock_data env DbOk ticker' (screen_stock env ticker w).2).1
    = Ok (DataJson (upper env ticker) row)
    ∧ st_current_price row = current_price
    ∧ st_pe_ratio row = sc_pe_ratio (calculate_screening_scores info)
    ∧ st_garp_score row = sc_garp_score (calculate_screening_scores info)
    ∧ st_growth_score row = sc_growth_score (calculate_screening_scores info)
    ∧ st_value_score row = sc_value_score (calculate_screening_scores info)
    ∧ st_updated_at row = clock w.
Proof.
  intros Hinfo Hhist Hlast Hdb Hupper.
  rewrite get_stock_data_run, Hupper.
  unfold screen_stock, try_except, M_bind, emit, lift, get_db_connection.
  rewrite Hinfo, Hhist, Hlast, Hdb. cbn. rewrite lookup_insert_eq.
  eexists. split; [reflexivity|].
  destruct (stocks (db w) !! upper env ticker); cbn; repeat split; reflexivity.
Qed.

Lemma screen_then_data_round_trip_witness :
  ∃ row,
    (get_stock_data apple_env DbOk "AAPL" (screen_stock apple_env "aapl" (rest_world empty_db 7000)).2).1
    = Ok (DataJson "AAPL" row)
    ∧ st_current_price row = 191.25%float
    ∧ st_pe_ratio row = sc_pe_ratio (calculate_screening_scores apple_info)
    ∧ st_garp_score row = sc_garp_score (calculate_screening_scores apple_info)
    ∧ st_growth_score row = sc_growth_score (calculate_screening_scores apple_info)
    ∧ st_value_score row = sc_value_score (calculate_screening_scores apple_info)
    ∧ st_updated_at row = 7000.
Proof.
  exact (screen_then_data_round_trip apple_env "aapl" "AAPL" (rest_world empty_db 7000)
           apple_info [189.5%float; 191.25%float] 191.25%float
           eq_refl eq_refl eq_refl eq_refl eq_refl).
Defined.


(** ** The two listings of the API *)

#[local] Instance newest_first_total : Total newest_first.
Proof. intros r1 r2. unfold newest_first. lia. Qed.

#[local] Instance newest_first_transitive : Transitive newest_first.
Proof. intros r1 r2 r3. unfold newest_first. lia. Qed.

#[local] Instance latest_first_total : Total latest_first.
Proof. intros r1 r2. unfold latest_first. lia. Qed.

#[local] Instance latest_first_transitive : Transitive latest_first.
Proof. intros r1 r2 r3. unfold latest_first. lia. Qed.

Lemma merging_engine_sorts : engine_sorts merging_engine.
Proof.
  repeat split; intros rows; cbn.
  - apply merge_sort_Permutation.
  - apply StronglySorted_merge_sort; apply _.
  - apply merge_sort_Permutation.
  - apply StronglySorted_merge_sort; apply _.
Qed.

Lemma get_sentiment_run (env : environment) (q : query_engine) (ticker : string)
    (w : world) :
  get_sentiment env q DbOk ticker w
  = (Ok match select_recent_news q (upper env ticker) (db w) with
        | [] => SentimentJson (upper env ticker) 0%float "Neutral" 0 []
        | item :: items =>
            let avg_sentiment :=
              PrimFloat.div
                (fold_left PrimFloat.add (map nw_sentiment_score (item :: items)) 0%float)
                (float_of_nat (length (item :: items))) in
            SentimentJson (upper env ticker) avg_sentiment
              (if PrimFloat.ltb 0.1%float avg_sentiment then "Positive"
               else if PrimFloat.ltb avg_sentiment (-0.1)%float then "Negative"
               else "Neutral")
              (length (item :: items)) (map recent_news_entry (item :: items))
        end, w).
Proof.
  unfold get_sentiment, try_except, M_bind, api_get_db_connection. cbn.
  destruct (select_recent_news q (upper env ticker) (db w)); reflexivity.
Qed.

(** X9: with a working store that sorts, [/sentiment/<ticker>] reports the
    stored headlines of the upper-cased ticker, at most ten of them, and the
    ten newest: a stored headline that is not reported is no newer than any
    reported one.  With no stored headline the answer is Neutral with score
    0.  The route only reads, and it answers 500 when the store fails. *)
Theorem get_sentiment_reports_newest_ten (env : environment) (q : query_engine)
    (ticker : string) (w : world) :
  engine_sorts q →
  let stored :=
    List.filter (λ r, String.eqb (nw_ticker r) (upper env ticker)) (news (db w)) in
  (∃ overall_score sentiment_label recent_news,
     get_sentiment env q DbOk ticker w
     = (Ok (SentimentJson (upper env ticker) overall_score sentiment_label
              (length recent_news) recent_news), w)
     ∧ length recent_news = Nat.min 10 (length stored)
     ∧ (stored = [] → overall_score = 0%float ∧ sentiment_label = "Neutral")
     ∧ (∀ entry, entry ∈ recent_news →
                 ∃ r, r ∈ stored ∧ entry = recent_news_entry r)
     ∧ (∀ entry r, entry ∈ recent_news → r ∈ stored →
                   recent_news_entry r ∈ recent_news
                   ∨ nw_published_at r <= ni_published_at entry))
  ∧ (∀ store, store ≠ DbOk →
              get_sentiment env q store ticker w = (Ok SentimentError500, w)).
Proof.
  intros (Hperm & Hsorted & _ & _) stored. split.
  - rewrite get_sentiment_run. unfold select_recent_news. fold stored.
    pose proof (Hperm stored) as Hp. pose proof (Hsorted stored) as Hs.
    set (l := order_news q stored) in *.
    assert (Hlen : length (take 10 l) = Nat.min 10 (length stored)).
    { rewrite length_take, Hp. reflexivity. }
    assert (Hmem : ∀ entry, entry ∈ map recent_news_entry (take 10 l) →
                            ∃ r, r ∈ stored ∧ entry = recent_news_entry r).
    { intros entry Hin. apply list_elem_of_fmap in Hin as (r & -> & Hr).
      exists r. split; [|reflexivity]. rewrite <- Hp. exact (subseteq_take 10 l r Hr). }
    assert (Hnew : ∀ entry r, entry ∈ map recent_news_entry (take 10 l) → r ∈ stored →
                              recent_news_entry r ∈ map recent_news_entry (take 10 l)
                              ∨ nw_published_at r <= ni_published_at entry).
    { intros entry r Hin Hr. apply list_elem_of_fmap in Hin as (x & -> & Hx).
      rewrite <- Hp, <- (take_drop 10 l) in Hr.
      apply elem_of_app in Hr as [Hr|Hr].
      - left. apply list_elem_of_fmap. exists r. auto.
      - right. rewrite <- (take_drop 10 l) in Hs.
        exact (StronglySorted_app_1_elem_of _ _ _ _ _ Hs Hx Hr). }
    destruct (take 10 l) as [|item items] eqn:Htake.
    + exists 0%float, "Neutral", []. repeat split; auto.
    + eexists _, _, (map recent_news_entry (item :: items)).
      rewrite length_map. split; [reflexivity|]. split; [exact Hlen|].
      split; [|split; assumption].
      intros Hnil. rewrite Hnil in Hlen. cbn in Hlen. discriminate.
  - intros store Hne.
    unfold get_sentiment, try_except, M_bind, api_get_db_connection.
    destruct store; [reflexivity|reflexivity|congruence].
Qed.

Lemma get_sentiment_reports_newest_ten_witness :
  let stored :=
    List.filter (λ r, String.eqb (nw_ticker r) (upper quiet_env "aapl")) (news quarter_db) in
  length stored = 3%nat
  ∧ ∃ overall_score sentiment_label recent_news,
      get_sentiment quiet_env merging_engine DbOk "aapl" (rest_world quarter_db 0)
      = (Ok (SentimentJson "AAPL" overall_score sentiment_label
               (length recent_news) recent_news), rest_world quarter_db 0)
      ∧ length recent_news = Nat.min 10 (length stored).
Proof.
  intros stored. split; [reflexivity|].
  destruct (get_sentiment_reports_newest_ten quiet_env merging_engine "aapl"
              (rest_world quarter_db 0) merging_engine_sorts)
    as [(score & label & recent & Hrun & Hlen & _) _].
  exists score, label, recent. split; [exact Hrun|exact Hlen].
Defined.

(** X10: with a working store that sorts, [/stocks] lists every stored
    ticker exactly once, each with the company name, price, scores and
    timestamp of its stored row, the most recently updated first; it answers
    500 when the store fails and never changes the world. *)
Theorem get_all_stocks_lists_every_ticker (q : query_engine) (w : world) :
  engine_sorts q →
  (∃ listing,
     get_all_stocks q DbOk w = (Ok (StocksJson listing), w)
     ∧ NoDup (map ls_ticker listing)
     ∧ (∀ t, t ∈ map ls_ticker listing ↔ t ∈ dom (stocks (db w)))
     ∧ (∀ entry, entry ∈ listing →
                 ∃ row, stocks (db w) !! ls_ticker entry = Some row
                        ∧ entry = listing_of (ls_ticker entry, row))
     ∧ StronglySorted (λ e1 e2, ls_updated_at e2 <= ls_updated_at e1) listing)
  ∧ (∀ store, store ≠ DbOk → get_all_stocks q store w = (Ok StocksError500, w)).
Proof.
  intros (_ & _ & Hperm & Hsorted). split.
  - eexists. split; [reflexivity|]. cbn. unfold select_all_stocks.
    pose proof (Hperm (map_to_list (stocks (db w)))) as Hp.
    assert (Hfst : map ls_ticker (map listing_of (order_stocks q (map_to_list (stocks (db w)))))
                   ≡ₚ (map_to_list (stocks (db w))).*1).
    { rewrite map_map. cbn. change (map (λ x, x.1)) with (fmap (M:=list) (@fst string stock_row)).
      rewrite Hp. reflexivity. }
    split; [rewrite Hfst; apply NoDup_fst_map_to_list|].
    split; [intros t; rewrite Hfst, dom_alt, elem_of_list_to_set; reflexivity|].
    split.
    + intros entry Hin. apply list_elem_of_fmap in Hin as ([t row] & -> & Hin).
      rewrite Hp in Hin. apply elem_of_map_to_list in Hin.
      exists row. split; [exact Hin|reflexivity].
    + refine (StronglySorted_fmap listing_of latest_first _ _ _ (Hsorted _)).
      intros e1 e2 H. exact H.
  - intros store Hne.
    unfold get_all_stocks, try_except, M_bind, api_get_db_connection.
    destruct store; [reflexivity|reflexivity|congruence].
Qed.

Lemma get_all_stocks_lists_every_ticker_witness :
  ∃ listing,
    get_all_stocks merging_engine DbOk (rest_world quarter_db 0)
    = (Ok (StocksJson listing), rest_world quarter_db 0)
    ∧ NoDup (map ls_ticker listing)
    ∧ (∀ t, t ∈ map ls_ticker listing ↔ t ∈ dom (stocks quarter_db)).
Proof.
  destruct (get_all_stocks_lists_every_ticker merging_engine
              (rest_world quarter_db 0) merging_engine_sorts)
    as [(listing & Hrun & Hnodup & Hdom & _) _].
  exists listing. split; [exact Hrun|]. split; [exact Hnodup|exact Hdom].
Defined.

(** ** What one news update does to the table *)

Lemma fold_add_if_new_appends (ticker : string) (items : list news_item)
    (rows : list news_row) :
  ∃ added,
    fold_left (add_if_new ticker) items rows = rows ++ added
    ∧ (length added ≤ length items)%nat
    ∧ ∀ r, In r added → ∃ item, In item items ∧ r = news_row_of ticker item.
Proof.
  revert rows. induction items as [|item items IH]; intros rows.
  - exists []. rewrite app_nil_r. repeat split; [reflexivity|]. intros r [].
  - cbn [fold_left]. destruct (IH (add_if_new ticker rows item)) as (added & Heq & Hlen & Hin).
    unfold add_if_new in Heq |- *.
    destruct (existsb (news_matches ticker (ni_headline item)) rows).
    + exists added. split; [exact Heq|]. split; [cbn; lia|].
      intros r Hr. destruct (Hin r Hr) as (item' & Hitem' & ->).
      exists item'. split; [right; exact Hitem'|reflexivity].
    + exists (news_row_of ticker item :: added).
      split; [rewrite Heq, <- app_assoc; reflexivity|]. split; [cbn; lia|].
      intros r [<-|Hr].
      * exists item. split; [left; reflexivity|reflexivity].
      * destruct (Hin r Hr) as (item' & Hitem' & ->).
        exists item'. split; [right; exact Hitem'|reflexivity].
Qed.

Lemma collected_news_length (env : environment) (ticker : string)
    (max_articles : nat) (now : Z) :
  (length (collected_news env ticker max_articles now) ≤ max_articles)%nat.
Proof.
  unfold collected_news.
  destruct (news_page env ticker) as [[status_code candidates]|]; [|cbn; lia].
  destruct (status_code =? 200); [|cbn; lia].
  rewrite length_map.
  etransitivity; [apply List.filter_length_le|].
  rewrite length_take. lia.
Qed.

Lemma collected_news_items (env : environment) (ticker : string)
    (max_articles : nat) (now : Z) (item : news_item) :
  In item (collected_news env ticker max_articles now) →
  ni_published_at item = now
  ∧ (10 < py_len (ni_headline item))%nat
  ∧ ni_sentiment_score item = polarity env (ni_headline item).
Proof.
  unfold collected_news.
  destruct (news_page env ticker) as [[status_code candidates]|]; [|intros []].
  destruct (status_code =? 200); [|intros []].
  intros Hin. apply in_map_iff in Hin as (headline & <- & Hin).
  apply filter_In in Hin as [_ Hlong]. unfold longer_than_10 in Hlong.
  apply Z.ltb_lt in Hlong. cbn. split; [reflexivity|]. split; [lia|reflexivity].
Qed.

(** X11: [update_news_sentiment] never raises and only appends to the news
    table: the rows stored before stay, in place and unchanged, at most five
    rows are added, and each added row carries the ticker of the call, a
    headline longer than ten characters, the scorer's polarity of that
    headline and the time of the call.  The stock table is not touched. *)
Theorem update_news_sentiment_only_appends (env : environment) (ticker : string)
    (w : world) :
  ∃ updated added,
    (update_news_sentiment env ticker w).1 = Ok updated
    ∧ news (db (update_news_sentiment env ticker w).2) = news (db w) ++ added
    ∧ stocks (db (update_news_sentiment env ticker w).2) = stocks (db w)
    ∧ (length added ≤ 5)%nat
    ∧ ∀ r, In r added →
           nw_ticker r = ticker
           ∧ nw_published_at r = clock w
           ∧ (10 < py_len (nw_headline r))%nat
           ∧ nw_sentiment_score r = polarity env (nw_headline r).
Proof.
  rewrite update_news_sentiment_run.
  pose proof (collected_news_length env ticker 5 (clock w)) as Hfive.
  pose proof (collected_news_items env ticker 5 (clock w)) as Hitems.
  destruct (collected_news env ticker 5 (clock w)) as [|item items] eqn:Hc.
  { exists false, []. rewrite app_nil_r.
    refine (conj eq_refl (conj eq_refl (conj eq_refl (conj _ _))));
      [cbn; lia|intros r []]. }
  destruct (db_status env (AtNews ticker)).
  1, 2: exists false, []; rewrite app_nil_r;
    refine (conj eq_refl (conj eq_refl (conj eq_refl (conj _ _))));
    [cbn; lia|intros r []].
  destruct (fold_add_if_new_appends ticker (item :: items) (news (db w)))
    as (added & Heq & Hlen & Hin).
  exists true, added. cbn [fst snd store log_call db news stocks].
  split; [reflexivity|]. split; [exact Heq|]. split; [reflexivity|].
  split; [lia|]. intros r Hr. destruct (Hin r Hr) as (item' & Hitem' & ->).
  destruct (Hitems item' Hitem') as (Hnow & Hlong & Hscore). cbn. auto.
Qed.

Lemma collected_news_headlines (env env' : environment) (ticker : string)
    (max_articles : nat) (now now' : Z) :
  news_page env' ticker = news_page env ticker →
  map ni_headline (collected_news env ticker max_articles now)
  = map ni_headline (collected_news env' ticker max_articles now').
Proof.
  intros Hpage. unfold collected_news. rewrite Hpage.
  destruct (news_page env ticker) as [[status_code candidates]|]; [|reflexivity].
  destruct (status_code =? 200); [|reflexivity].
  rewrite !map_map. reflexivity.
Qed.

Lemma fold_add_if_new_present (ticker : string) (items : list news_item)
    (rows : list news_row) :
  (∀ item, In item items → has_news ticker (ni_headline item) rows) →
  fold_left (add_if_new ticker) items rows = rows.
Proof.
  induction items as [|item items IH]; intros H; [reflexivity|].
  cbn [fold_left]. unfold add_if_new at 2.
  rewrite (H item (or_introl eq_refl)). apply IH.
  intros item' Hin. apply H. right. exact Hin.
Qed.

(** X12: after an [update_news_sentiment] that returned True, another one
    for the same ticker stores nothing new as long as the news page is
    unchanged: at any later time, whatever the store and the scorer do then,
    the store after it is the store after the first, although the freshly
    collected headlines carry newer timestamps. *)
Theorem update_news_sentiment_again_changes_nothing (env env' : environment)
    (ticker : string) (w w' : world) :
  news_page env' ticker = news_page env ticker →
  (update_news_sentiment env ticker w).1 = Ok true →
  db w' = db (update_news_sentiment env ticker w).2 →
  db (update_news_sentiment env' ticker w').2 = db w'.
Proof.
  intros Hpage. rewrite !update_news_sentiment_run.
  pose proof (collected_news_headlines env env' ticker 5 (clock w) (clock w') Hpage)
    as Hh.
  destruct (collected_news env ticker 5 (clock w)) as [|item items] eqn:Hc;
    [discriminate|].
  destruct (db_status env (AtNews ticker)); [discriminate..|].
  intros _. cbn [snd store log_call db]. intros Hdb.
  destruct (collected_news env' ticker 5 (clock w')) as [|item' items'] eqn:Hc';
    [reflexivity|].
  destruct (db_status env' (AtNews ticker)); [reflexivity..|].
  cbn [snd store log_call db]. rewrite Hdb at 2. rewrite Hdb.
  cbn [stocks news]. f_equal.
  apply fold_add_if_new_present. intros it Hit.
  assert (Hin : In (ni_headline it) (map ni_headline (item :: items))).
  { rewrite Hh. apply in_map. exact Hit. }
  apply in_map_iff in Hin as (it0 & Heq & Hit0). rewrite <- Heq.
  apply fold_add_if_new_has. exact Hit0.
Qed.

Lemma update_news_sentiment_again_changes_nothing_witness :
  let first := (update_news_sentiment msft_only_env "MSFT" (rest_world empty_db 0)).2 in
  length (news (db first)) = 1%nat
  ∧ db (update_news_sentiment louder_msft_env "MSFT" (advance 300000000 first)).2
    = db (advance 300000000 first).
Proof.
  intros first. split; [reflexivity|].
  exact (update_news_sentiment_again_changes_nothing msft_only_env louder_msft_env
           "MSFT" (rest_world empty_db 0) (advance 300000000 first)
           eq_refl eq_refl eq_refl).
Defined.

(** ** Invariants of a whole cycle *)

Lemma worker_job_run (env : environment) (w : world) :
  worker_job env w
  = cleanup_old_data env
      (fold_left (λ w ticker, after_ticker env ticker w) (cycle_tickers env w) w).
Proof.
  unfold worker_job, cycle_tickers. unfold M_bind at 1.
  rewrite worker_job_tickers_run.
  destruct (db_status env AtTickers); unfold M_bind;
    rewrite worker_job_loop_run; reflexivity.
Qed.

Lemma add_if_new_no_duplicates (ticker : string) (rows : list news_row)
    (item : news_item) :
  no_duplicate_news rows → no_duplicate_news (add_if_new ticker rows item).
Proof.
  intros Hrows ticker' headline'. unfold add_if_new.
  destruct (existsb _ rows) eqn:Hex; [apply Hrows|].
  rewrite count_news_app.
  destruct (news_matches ticker' headline' (news_row_of ticker item)) eqn:Hm;
    [|pose proof (Hrows ticker' headline'); lia].
  unfold news_matches in Hm. cbn in Hm.
  apply andb_true_iff in Hm as [Ht Hh].
  apply String.eqb_eq in Ht. apply String.eqb_eq in Hh. subst ticker' headline'.
  rewrite existsb_count_news in Hex.
  destruct (count_news ticker (ni_headline item) rows); [lia|discriminate].
Qed.

Lemma fold_add_if_new_no_duplicates (ticker : string) (items : list news_item)
    (rows : list news_row) :
  no_duplicate_news rows →
  no_duplicate_news (fold_left (add_if_new ticker) items rows).
Proof.
  revert rows. induction items as [|item items IH]; intros rows H; [exact H|].
  cbn [fold_left]. apply IH, add_if_new_no_duplicates, H.
Qed.

Lemma count_news_filter_le (ticker headline : string) (keep : news_row → bool)
    (rows : list news_row) :
  (count_news ticker headline (List.filter keep rows)
   ≤ count_news ticker headline rows)%nat.
Proof.
  unfold count_news. induction rows as [|r rows IH]; [reflexivity|].
  cbn. destruct (keep r); cbn; destruct (news_matches ticker headline r); cbn; lia.
Qed.

Lemma news_unique_after_ticker (env : environment) (ticker : string) (w : world) :
  no_duplicate_news (news (db w)) →
  no_duplicate_news (news (db (after_ticker env ticker w))).
Proof.
  intros H. rewrite news_after_ticker.
  destruct (collected_news env ticker 5 (clock w)) as [|item items]; [exact H|].
  destruct (db_status env (AtNews ticker)); try exact H.
  apply fold_add_if_new_no_duplicates, H.
Qed.

Lemma news_unique_after_loop (env : environment) (tickers : list string) (w : world) :
  no_duplicate_news (news (db w)) →
  no_duplicate_news
    (news (db (fold_left (λ w ticker, after_ticker env ticker w) tickers w))).
Proof.
  revert w. induction tickers as [|ticker tickers IH]; intros w H; [exact H|].
  cbn [fold_left]. apply IH, news_unique_after_ticker, H.
Qed.

(** X13: a cycle of the worker keeps the news table free of duplicates: if
    no (ticker, headline) pair is stored twice when the cycle starts, none
    is when it ends, whatever the providers return and wherever the store
    fails. *)
Theorem worker_job_keeps_news_unique (env : environment) (w : world) :
  no_duplicate_news (news (db w)) →
  no_duplicate_news (news (db (worker_job env w).2)).
Proof.
  intros H. rewrite worker_job_run, cleanup_old_data_run.
  pose proof (news_unique_after_loop env (cycle_tickers env w) w H) as Hloop.
  destruct (db_status env AtCleanup); try exact Hloop.
  cbn. intros ticker headline.
  etransitivity; [apply count_news_filter_le|apply Hloop].
Qed.

Lemma worker_job_keeps_news_unique_witness :
  no_duplicate_news
    (news (db (worker_job msft_only_env (rest_world empty_db cycle_start)).2)).
Proof.
  apply (worker_job_keeps_news_unique msft_only_env (rest_world empty_db cycle_start)).
  intros ticker headline. cbn. lia.
Defined.

Lemma stocks_lookup_after_ticker (env : environment) (ticker t : string) (w : world) :
  t ≠ ticker →
  stocks (db (after_ticker env ticker w)) !! t = stocks (db w) !! t.
Proof.
  intros Hne. rewrite stocks_after_ticker.
  destruct (stock_snapshot env ticker (clock w)); [|reflexivity].
  destruct (db_status env (AtStock ticker)); try reflexivity.
  apply lookup_insert_ne. congruence.
Qed.

Lemma stocks_dom_after_ticker (env : environment) (ticker : string) (w : world) :
  dom (stocks (db w)) ⊆ dom (stocks (db (after_ticker env ticker w))).
Proof.
  rewrite stocks_after_ticker.
  destruct (stock_snapshot env ticker (clock w)); [|reflexivity].
  destruct (db_status env (AtStock ticker)); try reflexivity.
  apply dom_insert_subseteq.
Qed.

Lemma stocks_after_cleanup (env : environment) (w : world) :
  stocks (db (cleanup_old_data env w).2) = stocks (db w).
Proof.
  rewrite cleanup_old_data_run. destruct (db_status env AtCleanup); reflexivity.
Qed.

(** X14: a cycle never deletes a stock row, and it leaves the row of every
    ticker outside its working list exactly as it was. *)
Theorem worker_job_keeps_stock_rows (env : environment) (w : world) :
  dom (stocks (db w)) ⊆ dom (stocks (db (worker_job env w).2))
  ∧ ∀ t, t ∉ cycle_tickers env w →
         stocks (db (worker_job env w).2) !! t = stocks (db w) !! t.
Proof.
  rewrite worker_job_run, stocks_after_cleanup.
  generalize (cycle_tickers env w). intros tickers. revert w.
  induction tickers as [|ticker tickers IH]; intros w; cbn [fold_left].
  - split; [reflexivity|]. intros t _. reflexivity.
  - destruct (IH (after_ticker env ticker w)) as [Hdom Hrow]. split.
    + etransitivity; [apply stocks_dom_after_ticker|exact Hdom].
    + intros t Hnot. apply not_elem_of_cons in Hnot as [Hne Hnot].
      rewrite (Hrow t Hnot). apply stocks_lookup_after_ticker. exact Hne.
Qed.

(** X15: when the sweep's store access works, every news row left at the
    end of a cycle was published no more than thirty days before the end of
    the cycle, rows inserted during the cycle included; the cycle lasts one
    second per ticker of its working list. *)
Theorem worker_job_leaves_recent_news (env : environment) (w : world) :
  db_status env AtCleanup = DbOk →
  clock (worker_job env w).2
  = clock w + Z.of_nat (length (cycle_tickers env w)) * 1000000
  ∧ ∀ r, In r (news (db (worker_job env w).2)) →
         clock (worker_job env w).2 - timedelta_days 30 <= nw_published_at r.
Proof.
  intros Hok. rewrite worker_job_run, cleanup_old_data_run, Hok.
  cbn [snd store clock db delete_news_before news].
  split; [apply clock_after_loop|].
  intros r Hr. apply filter_In in Hr as [_ Hr].
  apply negb_true_iff, Z.ltb_ge in Hr. exact Hr.
Qed.

Lemma worker_job_leaves_recent_news_witness :
  let out := (worker_job msft_only_env (rest_world recent_db cycle_start)).2 in
  map nw_headline (news (db (rest_world recent_db cycle_start)))
  = ["Apple rallies on strong earnings"]
  ∧ map nw_headline (news (db out)) = ["Microsoft beats revenue estimates"]
  ∧ clock out = cycle_start + 24 * 1000000
  ∧ ∀ r, In r (news (db out)) → clock out - timedelta_days 30 <= nw_published_at r.
Proof.
  intros out. subst out.
  destruct (worker_job_leaves_recent_news msft_only_env
              (rest_world recent_db cycle_start) eq_refl) as [Hclock Hnews].
  split; [reflexivity|]. split; [vm_compute; reflexivity|].
  split; [|exact Hnews]. rewrite Hclock. vm_compute. reflexivity.
Defined.

(** X16: every cycle calls both providers for every ticker of the default
    list, and, when the store answers the tickers query, for every ticker of
    the stock table; it calls them once per ticker of its working list, in
    order. *)
Theorem worker_job_calls_every_ticker (env : environment) (w : world) :
  (∀ X, set_order env X ≡ₚ elements X) →
  trace (worker_job env w).2 = trace w ++ flat_map calls_for (cycle_tickers env w)
  ∧ ∀ t, t ∈ DEFAULT_TICKERS
         ∨ (db_status env AtTickers = DbOk ∧ t ∈ dom (stocks (db w))) →
         YfCall t ∈ trace (worker_job env w).2
         ∧ NewsCall t ∈ trace (worker_job env w).2.
Proof.
  intros Horder.
  assert (Htrace : trace (worker_job env w).2
                   = trace w ++ flat_map calls_for (cycle_tickers env w)).
  { rewrite worker_job_run, cleanup_old_data_run.
    destruct (db_status env AtCleanup); cbn; apply trace_after_loop. }
  split; [exact Htrace|]. intros t Ht. rewrite Htrace.
  assert (Hin : In t (cycle_tickers env w)).
  { apply list_elem_of_In. unfold cycle_tickers.
    destruct (db_status env AtTickers) eqn:Hdb.
    1, 2: destruct Ht as [Ht|[Hne _]]; [exact Ht|discriminate].
    rewrite Horder, elem_of_elements, elem_of_list_to_set, elem_of_app.
    rewrite select_distinct_tickers_dom. tauto. }
  split; apply elem_of_app; right; apply list_elem_of_In, in_flat_map;
    exists t; (split; [exact Hin|]); cbn; auto.
Qed.

Lemma worker_job_calls_every_ticker_witness :
  YfCall "SHOP" ∈ trace (worker_job quiet_env (rest_world shop_db 0)).2
  ∧ NewsCall "SHOP" ∈ trace (worker_job quiet_env (rest_world shop_db 0)).2.
Proof.
  destruct (worker_job_calls_every_ticker quiet_env (rest_world shop_db 0)
              (λ X, reflexivity (elements X))) as [_ H].
  apply H. right. split; [reflexivity|]. apply elem_of_dom. eexists. reflexivity.
Defined.

(** ** Soft failures and bounds of the collector *)

(** X17: [fetch_news_sentiment] never raises: when the request raises or
    the status is not 200 it returns the empty list; it never returns more
    than [max_articles] headlines, and it calls the news page exactly once,
    changing neither the store nor the clock. *)
Theorem fetch_news_sentiment_is_soft_and_bounded (env : environment)
    (ticker : string) (max_articles : nat) (w : world) :
  ∃ headlines,
    fetch_news_sentiment env ticker max_articles w
    = (Ok headlines, log_call (NewsCall ticker) w)
    ∧ (length headlines ≤ max_articles)%nat
    ∧ ((∃ e, news_page env ticker = Raise e) → headlines = [])
    ∧ (∀ status_code candidates,
         news_page env ticker = Ok (status_code, candidates) →
         status_code ≠ 200 → headlines = []).
Proof.
  exists (collected_news env ticker max_articles (clock w)).
  split; [apply fetch_news_sentiment_run|].
  split; [apply collected_news_length|].
  unfold collected_news. split.
  - intros [e He]. rewrite He. reflexivity.
  - intros status_code candidates Hpage Hne. rewrite Hpage.
    destruct (status_code =? 200) eqn:H200; [|reflexivity].
    apply Z.eqb_eq in H200. contradiction.
Qed.

(** ** Sweeping twice *)

Lemma filter_filter_cutoff (c1 c2 : Z) (rows : list news_row) :
  c1 <= c2 →
  List.filter (λ r, negb (nw_published_at r <? c2))
    (List.filter (λ r, negb (nw_published_at r <? c1)) rows)
  = List.filter (λ r, negb (nw_published_at r <? c2)) rows.
Proof.
  intros Hle. induction rows as [|r rows IH]; [reflexivity|]. cbn.
  destruct (nw_published_at r <? c1) eqn:H1; cbn.
  - assert (H2 : (nw_published_at r <? c2) = true) by (apply Z.ltb_lt in H1; apply Z.ltb_lt; lia).
    rewrite H2. cbn. exact IH.
  - destruct (nw_published_at r <? c2); cbn; rewrite IH; reflexivity.
Qed.

(** X18: a sweep that follows an earlier sweep leaves exactly the rows
    that a single sweep at the later time leaves of the original table: the
    rows published at or after the later time minus thirty days. *)
Theorem cleanup_old_data_twice (env : environment) (w w' : world) :
  db_status env AtCleanup = DbOk →
  db w' = db (cleanup_old_data env w).2 →
  clock w <= clock w' →
  news (db (cleanup_old_data env w').2)
  = List.filter (λ r, negb (nw_published_at r <? clock w' - timedelta_days 30))
      (news (db w))
  ∧ stocks (db (cleanup_old_data env w').2) = stocks (db w).
Proof.
  intros Hok Hdb Hclock. rewrite !cleanup_old_data_run, Hok in *.
  cbn [snd store db delete_news_before news stocks] in *. rewrite Hdb.
  cbn [news stocks]. split; [|reflexivity].
  apply filter_filter_cutoff. lia.
Qed.

Lemma cleanup_old_data_twice_witness :
  let first := (cleanup_old_data quiet_env (rest_world recent_db cycle_start)).2 in
  news (db first) = [recent_row]
  ∧ news (db (cleanup_old_data quiet_env (advance 2000000 first)).2) = [].
Proof.
  intros first. split; [vm_compute; reflexivity|].
  destruct (cleanup_old_data_twice quiet_env (rest_world recent_db cycle_start)
              (advance 2000000 first) eq_refl eq_refl) as [H _].
  - vm_compute. discriminate.
  - rewrite H. vm_compute. reflexivity.
Defined.

(** ** Updating a ticker twice *)

(** X19: a second successful [update_stock_data] for a ticker, with the
    provider's answer unchanged, leaves one row for the ticker with the same
    company name, price, PE ratio, market cap and scores and the newer
    timestamp; the table has the same tickers as after the first update and
    the other rows are as they were. *)
Theorem update_stock_data_twice (env : environment) (ticker : string)
    (w w' : world) (row : stock_row) :
  stock_snapshot env ticker (clock w) = Some row →
  db_status env (AtStock ticker) = DbOk →
  db w' = db (update_stock_data env ticker w).2 →
  (update_stock_data env ticker w').1 = Ok true
  ∧ stocks (db (update_stock_data env ticker w').2) !! ticker
    = Some {| st_company_name := st_company_name row;
              st_current_price := st_current_price row;
              st_pe_ratio := st_pe_ratio row;
              st_market_cap := st_market_cap row;
              st_garp_score := st_garp_score row;
              st_growth_score := st_growth_score row;
              st_value_score := st_value_score row;
              st_updated_at := clock w' |}
  ∧ dom (stocks (db (update_stock_data env ticker w').2))
    = dom (stocks (db (update_stock_data env ticker w).2))
  ∧ ∀ t, t ≠ ticker →
         stocks (db (update_stock_data env ticker w').2) !! t = stocks (db w) !! t.
Proof.
  intros Hrow Hok. rewrite !update_stock_data_run, Hrow, Hok.
  assert (Hrow' : stock_snapshot env ticker (clock w')
                  = Some {| st_company_name := st_company_name row;
                            st_current_price := st_current_price row;
                            st_pe_ratio := st_pe_ratio row;
                            st_market_cap := st_market_cap row;
                            st_garp_score := st_garp_score row;
                            st_growth_score := st_growth_score row;
                            st_value_score := st_value_score row;
                            st_updated_at := clock w' |}).
  { revert Hrow. unfold stock_snapshot.
    destruct (yf_info env ticker) as [info|]; [|discriminate].
    destruct (yf_history env ticker "5d") as [hist|]; [|discriminate].
    destruct (last hist) as [current_price|]; [|discriminate].
    destruct (update_stock_data_scores _ info) as [[[g gr] v]|]; [|discriminate].
    intros Heq. injection Heq as <-. reflexivity. }
  rewrite Hrow'. cbn [fst snd store log_call db stocks]. intros Hdb. rewrite Hdb.
  cbn [stocks]. split; [reflexivity|]. split; [apply lookup_insert_eq|].
  split.
  - rewrite !dom_insert_L. apply set_eq. intros x. rewrite !elem_of_union. tauto.
  - intros t Hne.
    rewrite !lookup_insert_ne by (intros Heq; apply Hne; symmetry; exact Heq).
    reflexivity.
Qed.

Lemma update_stock_data_twice_witness :
  let first := (update_stock_data apple_env "AAPL" (rest_world empty_db 5000)).2 in
  (update_stock_data apple_env "AAPL" (advance 300000000 first)).1 = Ok true
  ∧ st_updated_at <$> stocks (db (update_stock_data apple_env "AAPL"
                                   (advance 300000000 first)).2) !! "AAPL"
    = Some 300005000.
Proof.
  intros first.
  destruct (update_stock_data_twice apple_env "AAPL" (rest_world empty_db 5000)
              (advance 300000000 first) _ eq_refl eq_refl eq_refl)
    as (Hret & Hrow & _).
  split; [exact Hret|]. rewrite Hrow. reflexivity.
Defined.
